(** * file-upload-es: search request, highlight classifier and index reconciliation

    A shallow embedding of the backend module [backend/elasticsearch.js]
    (index schema, search request, index, delete, list-all, reconciliation),
    of the type dispatch of [backend/textExtractor.js], of the file naming,
    upload filter and delete route of [backend/index.js], and of the
    highlight classifier, snippets and icons of [file-upload.component.ts],
    with the properties stated about them.

    JavaScript strings are modelled by [string]: sequences of code units
    below 256.  On that range [toLowerCase], [trim] and the regular
    expression classes used by the code are the functions of module [JS]. *)

From Stdlib Require Import Bool Arith ZArith List Ascii String DecimalString Lia.
Import ListNotations.

Set Warnings "-register-all".
Open Scope string_scope.

(* ================================================================== *)
(** ** JavaScript string primitives used by the code *)
(* ================================================================== *)

Module JS.

(** The double quote character, and a one-character string of it. *)
Definition dquote : ascii := "034"%char.
Definition q : string := String dquote EmptyString.

(** Line terminators below 256: LF and CR.  The regular expression [.]
    matches every code unit but these. *)
Definition is_line_terminator (c : ascii) : bool :=
  let n := nat_of_ascii c in ((n =? 10) || (n =? 13))%nat.

(** White space of [String.prototype.trim] and of the class [\s], below
    256: TAB, LF, VT, FF, CR, SP and NBSP. *)
Definition is_space (c : ascii) : bool :=
  let n := nat_of_ascii c in
  (((9 <=? n) && (n <=? 13)) || (n =? 32) || (n =? 160))%nat.

(** [toLowerCase] on one code unit: A-Z, and the Latin-1 capitals
    U+00C0..U+00DE except the multiplication sign U+00D7. *)
Definition lower_char (c : ascii) : ascii :=
  let n := nat_of_ascii c in
  if (((65 <=? n) && (n <=? 90))
      || ((192 <=? n) && (n <=? 222) && negb (n =? 215)))%nat
  then ascii_of_nat (n + 32) else c.

Fixpoint toLowerCase (s : string) : string :=
  match s with
  | EmptyString => EmptyString
  | String c s' => String (lower_char c) (toLowerCase s')
  end.

Fixpoint trimStart (s : string) : string :=
  match s with
  | EmptyString => EmptyString
  | String c s' => if is_space c then trimStart s' else s
  end.

Fixpoint trimEnd (s : string) : string :=
  match s with
  | EmptyString => EmptyString
  | String c s' =>
      match trimEnd s' with
      | EmptyString => if is_space c then EmptyString else String c EmptyString
      | t => String c t
      end
  end.

Definition trim (s : string) : string := trimEnd (trimStart s).

(** [s.startsWith(p)]. *)
Fixpoint startsWith (p s : string) : bool :=
  match p, s with
  | EmptyString, _ => true
  | String _ _, EmptyString => false
  | String a p', String b s' => Ascii.eqb a b && startsWith p' s'
  end.

(** [s.split(/\s+/)]: the pieces between maximal runs of white space.  As
    in JavaScript a leading or trailing run yields an empty first or last
    piece, and the empty string yields one empty piece. *)
Fixpoint split_ws_aux (cur : string) (in_sep : bool) (s : string) : list string :=
  match s with
  | EmptyString => [cur]
  | String c s' =>
      if is_space c
      then if in_sep then split_ws_aux cur true s'
           else cur :: split_ws_aux EmptyString true s'
      else split_ws_aux (cur ++ String c EmptyString) false s'
  end.

Definition split_ws (s : string) : list string := split_ws_aux EmptyString false s.

(** [a.includes(x)] and [a.some(t => t === x)] on arrays of strings. *)
Definition includes (a : list string) (x : string) : bool :=
  existsb (String.eqb x) a.

(** The last index of ["."] in [s], if any. *)
Fixpoint lastIndexOf_dot (s : string) : option nat :=
  match s with
  | EmptyString => None
  | String c s' =>
      match lastIndexOf_dot s' with
      | Some i => Some (S i)
      | None => if Ascii.eqb c "." then Some 0 else None
      end
  end.

(** [path.extname] of Node.js on a name without directory separators: the
    part from the last dot on; empty when there is no dot, when the only
    dot is the first character, and for [".."]. *)
Definition extname (name : string) : string :=
  match lastIndexOf_dot name with
  | None => EmptyString
  | Some 0 => EmptyString
  | Some i =>
      if String.eqb name ".." then EmptyString
      else substring i (String.length name - i) name
  end.

(** [a.join(sep)]. *)
Fixpoint join (sep : string) (a : list string) : string :=
  match a with
  | [] => ""
  | [x] => x
  | x :: rest => x ++ sep ++ join sep rest
  end.

End JS.

(* ================================================================== *)
(** ** backend/elasticsearch.js: requests sent to the index service *)
(* ================================================================== *)

Module Elasticsearch.

Import JS.
Open Scope Z_scope.

Definition INDEX_NAME : string := "documents".

(** *** Request bodies *)

Inductive operator := op_and | op_or.

(** The query clauses the module builds.  Optional keys of the JavaScript
    object literals are options; [fields] keeps the source's strings, with
    their [^weight] suffix. *)
Inductive query_clause :=
| match_all
| match_phrase (field query : string) (boost slop : Z)
| multi_match (query : string) (fields : list string)
    (operator_ : option operator) (fuzziness : option string)
    (prefix_length : option Z) (boost : Z)
| match_query (field query : string) (fuzziness : option string)
| bool_query (should : list query_clause) (minimum_should_match : option Z).

Record highlight_field := {
  fragment_size : option Z;
  number_of_fragments : option Z;
  hl_type : option string
}.

Record highlight_spec := {
  pre_tags : list string;
  post_tags : list string;
  order : string;
  highlight_query : query_clause;
  hl_fields : list (string * highlight_field)
}.

Record search_body := {
  query : query_clause;
  highlight : option highlight_spec;
  size : Z
}.

Record search_request := {
  index : string;
  body : search_body
}.

(** *** Index schema *)

Record analyzer_def := {
  an_type : string;
  tokenizer : string;
  an_filter : list string
}.

Record word_delimiter_def := {
  wd_type : string;
  generate_word_parts : bool;
  generate_number_parts : bool;
  catenate_words : bool;
  catenate_numbers : bool;
  catenate_all : bool;
  split_on_case_change : bool;
  preserve_original : bool;
  split_on_numerics : bool
}.

Inductive field_mapping :=
| FieldMapping (type : string) (analyzer : option string)
               (fields : list (string * field_mapping)).

Record create_body := {
  analysis_analyzer : list (string * analyzer_def);
  analysis_filter : list (string * word_delimiter_def);
  mappings_properties : list (string * field_mapping)
}.

(** The body [initElasticsearch] passes to [client.indices.create]. *)
Definition initElasticsearch_body : create_body := {|
  analysis_analyzer :=
    [("filename_analyzer",
      {| an_type := "custom"; tokenizer := "standard";
         an_filter := ["lowercase"; "filename_word_delimiter"] |})];
  analysis_filter :=
    [("filename_word_delimiter",
      {| wd_type := "word_delimiter";
         generate_word_parts := true;
         generate_number_parts := true;
         catenate_words := true;
         catenate_numbers := true;
         catenate_all := true;
         split_on_case_change := true;
         preserve_original := true;
         split_on_numerics := false |})];
  mappings_properties :=
    [("originalname", FieldMapping "text" (Some "filename_analyzer") []);
     ("content", FieldMapping "text" (Some "standard")
        [("exact", FieldMapping "text" (Some "whitespace") [])]);
     ("size", FieldMapping "long" None []);
     ("uploadDate", FieldMapping "date" None [])]
|}.

(** *** searchDocuments *)

Definition highlight_tag : string := "<span class=" ++ q ++ "highlight" ++ q ++ ">".

(** The body of the request [searchDocuments(query)] sends. *)
Definition searchDocuments_body (query : string) : search_body :=
  if String.eqb query "" || String.eqb (trim query) "" then
    {| query := match_all; highlight := None; size := 100 |}
  else
    let q := trim query in
    {| query :=
         bool_query
           [ match_phrase "content.exact" q 100 0;
             match_phrase "filename" q 100 0;
             multi_match q ["filename^2"; "content"] (Some op_and) None None 50;
             multi_match q ["filename"; "content"] None (Some "AUTO") (Some 1) 10;
             multi_match q ["filename"; "content"] (Some op_or) None None 1 ]
           (Some 1);
       highlight := Some
         {| pre_tags := [highlight_tag];
            post_tags := ["</span>"];
            order := "score";
            highlight_query :=
              bool_query
                [ match_query "content.exact" q None;
                  match_query "content" q (Some "AUTO");
                  match_query "filename" q (Some "AUTO") ]
                None;
            hl_fields :=
              [("content", {| fragment_size := Some 150;
                              number_of_fragments := Some 5;
                              hl_type := Some "plain" |});
               ("content.exact", {| fragment_size := Some 150;
                                    number_of_fragments := Some 5;
                                    hl_type := None |});
               ("filename", {| fragment_size := None;
                               number_of_fragments := None;
                               hl_type := None |});
               ("originalname", {| fragment_size := None;
                                   number_of_fragments := None;
                                   hl_type := None |})] |};
       size := 100 |}.

Definition searchDocuments_request (query : string) : search_request :=
  {| index := INDEX_NAME; body := searchDocuments_body query |}.

(** The request of [getAllDocuments]. *)
Definition getAllDocuments_body : search_body :=
  {| query := match_all; highlight := None; size := 10000 |}.

Definition getAllDocuments_request : search_request :=
  {| index := INDEX_NAME; body := getAllDocuments_body |}.

(** *** Reading a request: tiers, boosts, targeted fields *)

Inductive match_semantics :=
| ExactPhrase                       (* match_phrase, slop 0 *)
| AllTerms                          (* operator and *)
| Fuzzy (prefix : Z)                (* fuzziness set, with its prefix length *)
| AnyTerm                           (* operator or *)
| Other.

Definition clause_semantics (c : query_clause) : match_semantics :=
  match c with
  | match_phrase _ _ _ 0 => ExactPhrase
  | multi_match _ _ _ (Some _) (Some p) _ => Fuzzy p
  | multi_match _ _ (Some op_and) None _ _ => AllTerms
  | multi_match _ _ (Some op_or) None _ _ => AnyTerm
  | _ => Other
  end.

Definition clause_boost (c : query_clause) : Z :=
  match c with
  | match_phrase _ _ b _ => b
  | multi_match _ _ _ _ _ b => b
  | _ => 1
  end.

(** The field name of a [fields] entry: the part before [^]. *)
Fixpoint field_name (f : string) : string :=
  match f with
  | EmptyString => EmptyString
  | String c f' => if Ascii.eqb c "^" then EmptyString else String c (field_name f')
  end.

Definition clause_fields (c : query_clause) : list string :=
  match c with
  | match_phrase f _ _ _ => [f]
  | multi_match _ fs _ _ _ _ => map field_name fs
  | match_query f _ _ => [f]
  | _ => []
  end.

Definition clause_query (c : query_clause) : string :=
  match c with
  | match_phrase _ q _ _ => q
  | multi_match q _ _ _ _ _ => q
  | match_query _ q _ => q
  | _ => EmptyString
  end.

Definition should_clauses (qc : query_clause) : list query_clause :=
  match qc with
  | bool_query sh _ => sh
  | _ => []
  end.

Definition min_should_match (qc : query_clause) : option Z :=
  match qc with
  | bool_query _ m => m
  | _ => None
  end.

(** A tier: the should-clauses that carry one boost, as the comments of the
    source group them. *)
Record tier := {
  tier_boost : Z;
  tier_semantics : match_semantics;
  tier_fields : list string;      (* one entry per clause field *)
  tier_clauses : nat
}.

Fixpoint add_to_tiers (c : query_clause) (ts : list tier) : list tier :=
  match ts with
  | [] => [ {| tier_boost := clause_boost c;
               tier_semantics := clause_semantics c;
               tier_fields := clause_fields c;
               tier_clauses := 1 |} ]
  | t :: ts' =>
      if (tier_boost t =? clause_boost c)
      then {| tier_boost := tier_boost t;
              tier_semantics := tier_semantics t;
              tier_fields := (tier_fields t ++ clause_fields c)%list;
              tier_clauses := S (tier_clauses t) |} :: ts'
      else t :: add_to_tiers c ts'
  end.

Definition tiers_of (qc : query_clause) : list tier :=
  fold_left (fun ts c => add_to_tiers c ts) (should_clauses qc) [].

Definition dedup (l : list string) : list string :=
  fold_right (fun x acc => if includes acc x then acc else x :: acc) [] l.

Definition targeted_fields (qc : query_clause) : list string :=
  dedup (flat_map clause_fields (should_clauses qc)).

(** Looking a dotted field path up in the mapping: ["content.exact"] is
    the sub-field [exact] of [content]. *)
Fixpoint split_dot_aux (cur : string) (s : string) : list string :=
  match s with
  | EmptyString => [cur]
  | String c s' =>
      if Ascii.eqb c "." then cur :: split_dot_aux EmptyString s'
      else split_dot_aux (cur ++ String c EmptyString) s'
  end.

Fixpoint assoc {A} (k : string) (l : list (string * A)) : option A :=
  match l with
  | [] => None
  | (k', v) :: l' => if String.eqb k k' then Some v else assoc k l'
  end.

Definition mapping_of (props : list (string * field_mapping)) (path : string)
  : option field_mapping :=
  match split_dot_aux EmptyString path with
  | [f] => assoc f props
  | [f; sub] =>
      match assoc f props with
      | Some (FieldMapping _ _ subs) => assoc sub subs
      | None => None
      end
  | _ => None
  end.

Definition analyzer_of (props : list (string * field_mapping)) (path : string)
  : option string :=
  match mapping_of props path with
  | Some (FieldMapping _ a _) => a
  | None => None
  end.

(** An analyzer of the created index splits on delimiters and case changes
    and keeps the original token when it is a custom analyzer whose filter
    chain has a word-delimiter filter with these three options. *)
Definition is_filename_analysis (b : create_body) (name : string) : bool :=
  match assoc name (analysis_analyzer b) with
  | None => false
  | Some a =>
      existsb (fun f =>
        match assoc f (analysis_filter b) with
        | Some wd => String.eqb (wd_type wd) "word_delimiter"
                     && generate_word_parts wd
                     && split_on_case_change wd
                     && preserve_original wd
        | None => false
        end) (an_filter a)
  end.

Definition field_has_filename_analysis (b : create_body) (path : string) : bool :=
  match analyzer_of (mappings_properties b) path with
  | Some a => is_filename_analysis b a
  | None => false
  end.

(** The filename-like fields of a document: its stored name and the name
    it was uploaded under. *)
Definition filename_like (f : string) : bool :=
  String.eqb f "filename" || String.eqb f "originalname".

(** Additive scoring of a disjunction: a document's score is the sum of
    the boosts of the should-clauses it matches ([matched] says which).
    This is the scoring the rationale of the tiers assumes; the engine's
    own scoring function is outside the repository. *)
Definition additive_score (should : list query_clause)
           (matched : query_clause -> bool) : Z :=
  fold_right (fun c acc => (if matched c then clause_boost c else 0) + acc) 0 should.

(** A document matches an exact-phrase clause on the phrase [q]. *)
Definition is_exact_phrase (c : query_clause) : bool :=
  match clause_semantics c with
  | ExactPhrase => true
  | _ => false
  end.

Definition matches_exact_phrase (q : string) (should : list query_clause)
           (matched : query_clause -> bool) : bool :=
  existsb (fun c => is_exact_phrase c && String.eqb (clause_query c) q && matched c)
          should.

Definition matches_tier (should : list query_clause)
           (matched : query_clause -> bool) (b : Z) : bool :=
  existsb (fun c => (clause_boost c =? b) && matched c) should.

(** The five should-clauses of the ranked request for the trimmed query. *)
Definition ranked_should (q : string) : list query_clause :=
  [ match_phrase "content.exact" q 100 0;
    match_phrase "filename" q 100 0;
    multi_match q ["filename^2"; "content"] (Some op_and) None None 50;
    multi_match q ["filename"; "content"] None (Some "AUTO") (Some 1) 10;
    multi_match q ["filename"; "content"] (Some op_or) None None 1 ].

(** A document with the exact phrase matches every clause; one with the
    misspelt variant matches the fuzzy and the any-term clause only. *)
Definition matches_everything (c : query_clause) : bool := true.

Definition matches_fuzzy_only (c : query_clause) : bool :=
  match clause_semantics c with
  | Fuzzy _ | AnyTerm => true
  | _ => false
  end.

End Elasticsearch.

(* ================================================================== *)
(** ** backend/elasticsearch.js: index operations and reconciliation *)
(* ================================================================== *)

Module Sync.

Import JS Elasticsearch.
Open Scope Z_scope.

(** *** The index service *)

Record document := {
  filename : string;
  originalname : string;
  content : string;
  doc_size : Z;
  uploadDate : option Z          (* [undefined] when the caller gives none *)
}.

Record source := {
  src_filename : string;
  src_originalname : string;
  src_content : string;
  src_size : Z;
  src_uploadDate : Z
}.

Record hit := { _id : string; _source : source }.

(** A response of the client: a value, or an error with its status code. *)
Inductive response (A : Type) :=
| ok (a : A)
| error (statusCode : Z).
Arguments ok {A} a.
Arguments error {A} statusCode.

(** How a JavaScript function ends: it returns, or it throws. *)
Inductive completion (A : Type) :=
| returned (a : A)
| thrown (statusCode : Z).
Arguments returned {A} a.
Arguments thrown {A} statusCode.

(** The write requests the service has received, in order. *)
Inductive es_call :=
| call_delete (id : string)
| call_index (id : string).

(** The index service: the documents of the index [documents] in the
    service's own order ([None] when the index does not exist), and the
    write requests received so far. *)
Record es_world := {
  es_index : option (list hit);
  es_calls : list es_call
}.

Definition docs (w : es_world) : list hit :=
  match es_index w with
  | Some ds => ds
  | None => []
  end.

Definition ids (ds : list hit) : list string := map _id ds.

(** What the reconciliation needs from outside the module: the text
    extractor, the documents the service refuses to index, and the clock. *)
Record environment := {
  extractText : string -> string -> string;   (* file name, mime type *)
  rejects : source -> bool;
  now : Z
}.

(** A [match_all] search: the first [size] documents; 404 without index. *)
Definition client_search_match_all (w : es_world) (size : Z) : response (list hit) :=
  match es_index w with
  | None => error 404
  | Some ds => ok (firstn (Z.to_nat size) ds)
  end.

(** [client.delete]: removes the document with that id; 404 when there is
    none. *)
Definition client_delete (w : es_world) (id : string) : es_world * response unit :=
  let calls := (es_calls w ++ [call_delete id])%list in
  match es_index w with
  | None => ({| es_index := None; es_calls := calls |}, error 404)
  | Some ds =>
      if includes (ids ds) id
      then ({| es_index := Some (filter (fun h => negb (String.eqb (_id h) id)) ds);
               es_calls := calls |}, ok tt)
      else ({| es_index := Some ds; es_calls := calls |}, error 404)
  end.

(** Insert, or replace the document with the same id. *)
Fixpoint upsert (h : hit) (ds : list hit) : list hit :=
  match ds with
  | [] => [h]
  | d :: ds' => if String.eqb (_id d) (_id h) then h :: ds' else d :: upsert h ds'
  end.

Section WithEnvironment.

Variable env : environment.

(** [client.index]: refused with status 400 for the documents the service
    rejects; otherwise an upsert under the given id (the index is created
    when missing). *)
Definition client_index (w : es_world) (id : string) (b : source)
  : es_world * response unit :=
  let calls := (es_calls w ++ [call_index id])%list in
  if rejects env b
  then ({| es_index := es_index w; es_calls := calls |}, error 400)
  else ({| es_index := Some (upsert {| _id := id; _source := b |} (docs w));
           es_calls := calls |}, ok tt).

(** The body [indexDocument] stores for [doc]. *)
Definition source_of (doc : document) : source :=
  {| src_filename := filename doc;
     src_originalname := originalname doc;
     src_content := content doc;                   (* doc.content || '' *)
     src_size := doc_size doc;
     src_uploadDate := match uploadDate doc with   (* doc.uploadDate || new Date() *)
                       | Some d => d
                       | None => now env
                       end |}.

(** [indexDocument(doc)]: errors are logged and thrown again. *)
Definition indexDocument (w : es_world) (doc : document) : es_world * completion unit :=
  match client_index w (filename doc) (source_of doc) with
  | (w', ok _) => (w', returned tt)
  | (w', error status) => (w', thrown status)
  end.

End WithEnvironment.

(** The [try]/[catch] of [deleteDocument], on what [client.delete] left
    and answered: an error of the client is caught; it is logged unless
    its status is 404, and never thrown again. *)
Definition deleteDocument_catch (outcome : es_world * response unit)
  : es_world * completion unit :=
  match outcome with
  | (w', ok _) => (w', returned tt)
  | (w', error status) =>
      if negb (status =? 404) then (w', returned tt) (* console.error *)
      else (w', returned tt)
  end.

(** [deleteDocument(filename)]. *)
Definition deleteDocument (w : es_world) (filename : string) : es_world * completion unit :=
  deleteDocument_catch (client_delete w filename).

(** The [try]/[catch] of [getAllDocuments], on the answer of
    [client.search]: status 404 (no index yet) gives the empty list; any
    other error is thrown again. *)
Definition getAllDocuments_catch (answer : response (list hit)) : completion (list hit) :=
  match answer with
  | ok hits => returned hits
  | error status => if status =? 404 then returned [] else thrown status
  end.

(** [getAllDocuments()]. *)
Definition getAllDocuments (w : es_world) : completion (list hit) :=
  getAllDocuments_catch (client_search_match_all w (size getAllDocuments_body)).

(** *** File types *)

Definition getMimeType (filename : string) : option string :=
  let ext := toLowerCase (extname filename) in
  if String.eqb ext ".pdf" then Some "application/pdf"
  else if String.eqb ext ".doc" then Some "application/msword"
  else if String.eqb ext ".docx" then
    Some "application/vnd.openxmlformats-officedocument.wordprocessingml.document"
  else if String.eqb ext ".xls" then Some "application/vnd.ms-excel"
  else if String.eqb ext ".xlsx" then
    Some "application/vnd.openxmlformats-officedocument.spreadsheetml.sheet"
  else None.

Definition isSupportedFileType (filename : string) : bool :=
  match getMimeType filename with
  | Some _ => true
  | None => false
  end.

(** *** The storage root *)

Record Stats := { isFile : bool; st_size : Z; mtime : Z }.

(** An entry of the uploads directory: its name, and what [fs.statSync]
    gives for it, [None] when it throws (a link whose target is gone). *)
Record dirent := { name : string; stats : option Stats }.

(** The state the reconciliation runs in: the entries of the uploads
    directory ([None] when the directory does not exist) and the index
    service. *)
Record world := {
  uploads : option (list dirent);
  es : es_world
}.

(** [fs.statSync] of a name in the uploads directory; [None] stands for
    the exception thrown when there is no such entry or its stat fails. *)
Fixpoint statSync (entries : list dirent) (filename : string) : option Stats :=
  match entries with
  | [] => None
  | e :: rest => if String.eqb (name e) filename then stats e
                 else statSync rest filename
  end.

(** How the listing of the storage root ends. *)
Inductive listing_result :=
| listed (files : list string)
| stat_throws (filename : string).

(** [fs.readdirSync(uploadsDir).filter(...)]: the regular files whose name
    does not start with a dot.  The filter stats every entry in turn, and
    the first stat that throws ends the listing. *)
Fixpoint filesInDirectory (entries : list dirent) : listing_result :=
  match entries with
  | [] => listed []
  | e :: rest =>
      match stats e with
      | None => stat_throws (name e)
      | Some st =>
          match filesInDirectory rest with
          | listed files =>
              listed (if isFile st && negb (startsWith "." (name e))
                      then name e :: files else files)
          | stat_throws f => stat_throws f
          end
      end
  end.

(** *** syncFilesWithElasticsearch *)

Record summary := {
  orphansRemoved : nat;            (* orphanedRecords.length *)
  indexedCount : nat;
  skippedCount : nat
}.

Inductive sync_result :=
| no_directory                                   (* the early return *)
| synced (orphanedRecords : list hit) (newFiles : list string) (s : summary)
| sync_failed (statusCode : Z)                   (* thrown again by the outer catch *)
| stat_failed (filename : string).               (* likewise, from the listing *)

(** [for (const doc of orphanedRecords) await deleteDocument(doc._id)]. *)
Fixpoint delete_orphans (w : es_world) (orphanedRecords : list hit) : es_world :=
  match orphanedRecords with
  | [] => w
  | doc :: rest => delete_orphans (fst (deleteDocument w (_id doc))) rest
  end.

Section Reconciliation.

Variable env : environment.

(** The document built for a new file from its stats and extracted text. *)
Definition new_document (st : Stats) (filename mimetype : string) : document :=
  let content := extractText env filename mimetype in
  {| filename := filename;
     originalname := filename;
     content := content;
     doc_size := st_size st;
     uploadDate := Some (mtime st) |}.

(** [for (const filename of newFiles) ...], with its two counters. *)
Fixpoint index_new_files (entries : list dirent) (w : es_world)
         (newFiles : list string) (indexedCount skippedCount : nat)
  : es_world * nat * nat :=
  match newFiles with
  | [] => (w, indexedCount, skippedCount)
  | filename :: rest =>
      match getMimeType filename with
      | None =>
          index_new_files entries w rest indexedCount (S skippedCount)
      | Some mimetype =>
          match statSync entries filename with
          | None =>                                    (* caught per file *)
              index_new_files entries w rest indexedCount skippedCount
          | Some st =>
              match indexDocument env w (new_document st filename mimetype) with
              | (w', returned _) =>
                  index_new_files entries w' rest (S indexedCount) skippedCount
              | (w', thrown _) =>                      (* caught per file *)
                  index_new_files entries w' rest indexedCount skippedCount
              end
          end
      end
  end.

Definition syncFilesWithElasticsearch (w : world) : world * sync_result :=
  match uploads w with
  | None =>
      (* fs.mkdirSync(uploadsDir); return *)
      ({| uploads := Some []; es := es w |}, no_directory)
  | Some entries =>
      match filesInDirectory entries with
      | stat_throws f => (w, stat_failed f)
      | listed filesInDirectory =>
          match getAllDocuments (es w) with
          | thrown status => (w, sync_failed status)
          | returned documentsInES =>
              let filenamesInES := ids documentsInES in
              let orphanedRecords :=
                filter (fun doc => negb (includes filesInDirectory (_id doc)))
                       documentsInES in
              let es1 := delete_orphans (es w) orphanedRecords in
              let newFiles :=
                filter (fun filename => negb (includes filenamesInES filename)
                                        && isSupportedFileType filename)
                       filesInDirectory in
              match index_new_files entries es1 newFiles 0 0 with
              | (es2, indexedCount, skippedCount) =>
                  ({| uploads := Some entries; es := es2 |},
                   synced orphanedRecords newFiles
                          {| orphansRemoved := List.length orphanedRecords;
                             indexedCount := indexedCount;
                             skippedCount := skippedCount |})
              end
          end
      end
  end.

(** The world and the two counters the loop ends with. *)
Definition loop_world entries w l ic sc := fst (fst (index_new_files entries w l ic sc)).
Definition loop_indexed entries w l ic sc := snd (fst (index_new_files entries w l ic sc)).
Definition loop_skipped entries w l ic sc := snd (index_new_files entries w l ic sc).

(** The service refuses the document of the file [filename]. *)
Definition refused (entries : list dirent) (filename : string) : bool :=
  match getMimeType filename, statSync entries filename with
  | Some mimetype, Some st => rejects env (source_of env (new_document st filename mimetype))
  | _, _ => false
  end.

(** What one turn of the loop does with a file: it counts it as skipped,
    fails on its stats, is refused by the service, or indexes it. *)
Inductive turn (entries : list dirent) (f : string) : Prop :=
| turn_unsupported : getMimeType f = None -> turn entries f
| turn_missing m :
    getMimeType f = Some m -> statSync entries f = None -> turn entries f
| turn_refused : refused entries f = true -> turn entries f
| turn_accepted m st :
    getMimeType f = Some m -> statSync entries f = Some st ->
    refused entries f = false -> turn entries f.

End Reconciliation.

(** *** What the properties speak about *)

Definition is_delete (c : es_call) : bool :=
  match c with call_delete _ => true | call_index _ => false end.

Definition is_index (c : es_call) : bool :=
  match c with call_index _ => true | call_delete _ => false end.

(** The regular files of the storage root whose name does not start with
    a dot: the entries the listing keeps, when it succeeds. *)
Definition regular_names (entries : list dirent) : list string :=
  map name
      (filter (fun e => match stats e with
                        | Some st => isFile st && negb (startsWith "." (name e))
                        | None => false
                        end) entries).

(** What [getAllDocuments] shows of the index. *)
Definition listing (w : es_world) : list hit :=
  firstn (Z.to_nat (size getAllDocuments_body)) (docs w).

(** [newFiles] for a listing. *)
Definition new_files (entries : list dirent) (listed : list hit) : list string :=
  filter (fun filename => negb (includes (ids listed) filename)
                          && isSupportedFileType filename)
         (regular_names entries).

(** The indexed documents with no file in the storage root. *)
Definition orphans (entries : list dirent) (ds : list hit) : list hit :=
  filter (fun h => negb (includes (regular_names entries) (_id h))) ds.

(** The file entries of unsupported type that are not indexed. *)
Definition unsupported_unindexed (entries : list dirent) (ds : list hit) : list string :=
  filter (fun f => negb (isSupportedFileType f) && negb (includes (ids ds) f))
         (regular_names entries).

(** The stored body of the document with the given id, if there is one. *)
Definition get_source (ds : list hit) (id : string) : option source :=
  match find (fun h => String.eqb (_id h) id) ds with
  | Some h => Some (_source h)
  | None => None
  end.

(** The document the reconciliation stores for the file [f] with stats
    [st] and mime type [m]. *)
Definition file_hit (env : environment) (f m : string) (st : Stats) : hit :=
  {| _id := f;
     _source := {| src_filename := f;
                   src_originalname := f;
                   src_content := extractText env f m;
                   src_size := st_size st;
                   src_uploadDate := mtime st |} |}.

(** The index requests among the requests received. *)
Definition indexed_names (cs : list es_call) : list string :=
  flat_map (fun c => match c with call_index f => [f] | call_delete _ => [] end) cs.

(** *** Sample states *)

(** Collaborators that extract no text and refuse nothing. *)
Definition quiet : environment :=
  {| extractText := fun _ _ => ""; rejects := fun _ => false; now := 0 |}.

Definition regular_file (n : string) : dirent :=
  {| name := n; stats := Some {| isFile := true; st_size := 1; mtime := 2 |} |}.

(** A link whose target is gone: its stat throws. *)
Definition dangling_link (n : string) : dirent := {| name := n; stats := None |}.

Definition stored (n : string) : hit :=
  {| _id := n;
     _source := {| src_filename := n; src_originalname := n; src_content := "";
                   src_size := 0; src_uploadDate := 0 |} |}.

Definition idle : es_world := {| es_index := Some []; es_calls := [] |}.

(** One indexed file, one file to index, one orphan, one text file. *)
Definition small_world : world :=
  {| uploads := Some [regular_file "a.pdf"; regular_file "b.docx";
                      regular_file "notes.txt"];
     es := {| es_index := Some [stored "gone.pdf"; stored "a.pdf"]; es_calls := [] |} |}.

(** A text file in the storage root and an empty index. *)
Definition text_file_world : world :=
  {| uploads := Some [regular_file "notes.txt"]; es := idle |}.

(** A storage root with a dangling link, and one orphan in the index. *)
Definition broken_link_world : world :=
  {| uploads := Some [regular_file "a.pdf"; dangling_link "link.pdf"];
     es := {| es_index := Some [stored "gone.pdf"; stored "a.pdf"]; es_calls := [] |} |}.

(** An indexed document and no storage root. *)
Definition rootless_world : world :=
  {| uploads := None;
     es := {| es_index := Some [stored "a.pdf"]; es_calls := [] |} |}.

(** An empty storage root and an index of 10001 documents with distinct
    three-letter names. *)
Definition letter (k : nat) : ascii := ascii_of_nat (97 + k mod 26).

Definition numbered (k : nat) : string :=
  String (letter k) (String (letter (k / 26)) (String (letter (k / 676)) ".pdf")).

Definition many (n : nat) : list hit := map (fun k => stored (numbered k)) (seq 0 n).

Definition crowded_world : world :=
  {| uploads := Some [];
     es := {| es_index := Some (many (Z.to_nat 10001)); es_calls := [] |} |}.

End Sync.

(* ================================================================== *)
(** ** file-upload.component.ts: the highlight classifier *)
(* ================================================================== *)

Module Highlight.

Import JS.

(** The two literal parts of the regular expression
    [/<span class="highlight">(.*?)<\/span>/gi], and the two opening tags
    the callback writes. *)
Definition open_pattern : string := "<span class=" ++ q ++ "highlight" ++ q ++ ">".
Definition close_pattern : string := "</span>".
Definition exact_tag : string := "<span class=" ++ q ++ "highlight" ++ q ++ ">".
Definition fuzzy_tag : string := "<span class=" ++ q ++ "highlight-fuzzy" ++ q ++ ">".

(** Two code units are equal under the flag [i]. *)
Definition ci_eq (a b : ascii) : bool := Ascii.eqb (lower_char a) (lower_char b).

(** The literal [p] matches at the start of [s], ignoring case. *)
Fixpoint matches_ci (p s : string) : bool :=
  match p, s with
  | EmptyString, _ => true
  | String _ _, EmptyString => false
  | String a p', String b s' => ci_eq a b && matches_ci p' s'
  end.

Fixpoint drop (n : nat) (s : string) : string :=
  match n, s with
  | O, _ => s
  | S _, EmptyString => EmptyString
  | S n', String _ s' => drop n' s'
  end.

(** [(.*?)<\/span>] from the start of [s]: the shortest run of code units
    other than line terminators that the closing tag follows.  The result
    is the captured run and what is left after the closing tag. *)
Fixpoint capture (s : string) : option (string * string) :=
  match s with
  | EmptyString => None
  | String c s' =>
      if matches_ci close_pattern s
      then Some (EmptyString, drop (String.length close_pattern) s)
      else if is_line_terminator c then None
      else match capture s' with
           | Some (content, rest) => Some (String c content, rest)
           | None => None
           end
  end.

(** A match of the whole expression at the start of [s]. *)
Definition match_span (s : string) : option (string * string) :=
  if matches_ci open_pattern s
  then capture (drop (String.length open_pattern) s)
  else None.

(** [html.replace(/.../gi, callback)]: scanning from the left, a match is
    replaced by the callback's result and the scan goes on after it; a
    code unit where no match starts is copied.  [skip] counts the code
    units of the current match still to pass over. *)
Fixpoint replace_spans (callback : string -> string) (skip : nat) (html : string)
  : string :=
  match html with
  | EmptyString => EmptyString
  | String c rest =>
      match skip with
      | S k => replace_spans callback k rest
      | O =>
          match match_span html with
          | Some (content, _) =>
              callback content
              ++ replace_spans callback
                   (String.length open_pattern + String.length content
                    + String.length close_pattern - 1) rest
          | None => String c (replace_spans callback 0 rest)
          end
      end
  end.

(** The query terms: [term.split(/\s+/).filter(t => t.length > 0)]. *)
Definition query_terms (term : string) : list string :=
  filter (fun t => negb (Nat.eqb (String.length t) 0)) (split_ws term).

(** [isExact] of the callback, for the trimmed, lowercased query [term]. *)
Definition isExact (term : string) (content : string) : bool :=
  let lowerContent := toLowerCase content in
  existsb (fun t => String.eqb t lowerContent) (query_terms term)
  || String.eqb term lowerContent.

Definition relabel (term : string) (content : string) : string :=
  if isExact term content
  then exact_tag ++ content ++ "</span>"
  else fuzzy_tag ++ content ++ "</span>".

(** [processHighlights(html)] of a component whose search box holds
    [searchTerm]. *)
Definition processHighlights (searchTerm html : string) : string :=
  if String.eqb searchTerm "" || String.eqb (trim searchTerm) ""
     || String.eqb html ""
  then html
  else
    let term := toLowerCase (trim searchTerm) in
    replace_spans (relabel term) 0 html.

(** *** Fragments *)

(** A highlight fragment as the index service writes it: wrapped spans,
    each after a stretch of text, and the text after the last span. *)
Record fragment := {
  spans : list (string * string);     (* text before the span, inner text *)
  tail : string
}.

Definition wrap (inner : string) : string := open_pattern ++ inner ++ close_pattern.

Fixpoint render_spans (f : string -> string) (l : list (string * string)) (tl : string)
  : string :=
  match l with
  | [] => tl
  | (before, inner) :: l' => before ++ f inner ++ render_spans f l' tl
  end.

(** The fragment as text, and the fragment with every span relabelled
    from its own inner text. *)
Definition render (fr : fragment) : string := render_spans wrap (spans fr) (tail fr).

Definition classified (term : string) (fr : fragment) : string :=
  render_spans (relabel term) (spans fr) (tail fr).

(** The literal [p] occurs in [s], ignoring case. *)
Fixpoint occurs_ci (p s : string) : bool :=
  matches_ci p s ||
  match s with
  | EmptyString => false
  | String _ s' => occurs_ci p s'
  end.

Fixpoint has_line_terminator (s : string) : bool :=
  match s with
  | EmptyString => false
  | String c s' => is_line_terminator c || has_line_terminator s'
  end.

(** No code unit of [s] is [c], ignoring case. *)
Fixpoint free_of (c : ascii) (s : string) : bool :=
  match s with
  | EmptyString => true
  | String a s' => negb (ci_eq a c) && free_of c s'
  end.

(** The spans are delimited as listed: no opening tag in the text
    stretches, no closing tag and no line terminator in an inner text. *)
Definition well_delimited (fr : fragment) : bool :=
  forallb (fun p => negb (occurs_ci open_pattern (fst p))
                    && negb (occurs_ci close_pattern (snd p))
                    && negb (has_line_terminator (snd p))) (spans fr)
  && negb (occurs_ci open_pattern (tail fr)).

(** The classification of the specification: the inner text with nested
    markup stripped (every run from [<] to the next [>] removed, as
    [replace(/<[^>]*>/g, '')] does) and lowercased is compared with the
    query terms and with the whole query. *)
Fixpoint up_to_gt (s : string) : option string :=
  match s with
  | EmptyString => None
  | String c s' => if Ascii.eqb c ">" then Some s' else up_to_gt s'
  end.

Fixpoint strip_markup_aux (skip : nat) (s : string) : string :=
  match s with
  | EmptyString => EmptyString
  | String c s' =>
      match skip with
      | S k => strip_markup_aux k s'
      | O =>
          if Ascii.eqb c "<" then
            match up_to_gt s' with
            | Some rest => strip_markup_aux (String.length s' - String.length rest) s'
            | None => String c (strip_markup_aux 0 s')
            end
          else String c (strip_markup_aux 0 s')
      end
  end.

Definition strip_markup (s : string) : string := strip_markup_aux 0 s.

Definition spec_isExact (searchTerm : string) (inner : string) : bool :=
  let term := toLowerCase (trim searchTerm) in
  let text := toLowerCase (strip_markup inner) in
  existsb (fun t => String.eqb t text) (query_terms term) || String.eqb term text.

(** [s] has a white-space code unit. *)
Fixpoint has_space (s : string) : bool :=
  match s with
  | EmptyString => false
  | String c s' => is_space c || has_space s'
  end.

End Highlight.

(* ================================================================== *)
(** ** backend/textExtractor.js: the dispatch on the mime type *)
(* ================================================================== *)

Module TextExtractor.

(** The four extractors of the module. *)
Inductive format := PDF | Word | Doc | Excel.

(** The libraries behind them; [None] stands for a failure (an exception
    or an error passed to the callback), [Some t] for what was read: the
    text, or for a workbook its sheets as rows of cells, each cell the
    string [join] renders it as. *)
Record libraries := {
  pdfParse : string -> option string;
  mammoth : string -> option string;
  textract : string -> option string;
  xlsx : string -> option (list (list (list string)))
}.

(** The text of a workbook: every row that has cells, its cells joined
    by a space and followed by one. *)
Definition workbook_text (sheets : list (list (list string))) : string :=
  fold_left (fun text sheetData =>
               fold_left (fun text row =>
                            match row with
                            | [] => text
                            | _ => text ++ JS.join " " row ++ " "
                            end) sheetData text) sheets "".

(** The [switch] of [extractText]: the extractor called for a mime type,
    [None] for the default branch. *)
Definition format_of (mimetype : string) : option format :=
  if String.eqb mimetype "application/pdf" then Some PDF
  else if String.eqb mimetype
            "application/vnd.openxmlformats-officedocument.wordprocessingml.document"
  then Some Word
  else if String.eqb mimetype "application/msword" then Some Doc
  else if String.eqb mimetype
            "application/vnd.openxmlformats-officedocument.spreadsheetml.sheet"
  then Some Excel
  else if String.eqb mimetype "application/vnd.ms-excel" then Some Excel
  else None.

(** Each extractor catches the failure of its library and gives the
    empty text; the Excel extractor trims the text of the workbook. *)
Definition extract (lib : libraries) (fmt : format) (filePath : string) : string :=
  match fmt with
  | PDF => match pdfParse lib filePath with Some t => t | None => "" end
  | Word => match mammoth lib filePath with Some t => t | None => "" end
  | Doc => match textract lib filePath with Some t => t | None => "" end
  | Excel => match xlsx lib filePath with
             | Some sheets => JS.trim (workbook_text sheets)
             | None => ""
             end
  end.

(** [extractText(filePath, mimetype)]. *)
Definition extractText (lib : libraries) (filePath mimetype : string) : string :=
  match format_of mimetype with
  | Some fmt => extract lib fmt filePath
  | None => ""                      (* console.warn: unsupported mime type *)
  end.


End TextExtractor.

(* ================================================================== *)
(** ** backend/index.js: file names and types of the upload route *)
(* ================================================================== *)

Module Server.

Import JS.

(** [getMimeType] of index.js: as in elasticsearch.js, with a default. *)
Definition getMimeType (filename : string) : string :=
  let ext := toLowerCase (extname filename) in
  if String.eqb ext ".pdf" then "application/pdf"
  else if String.eqb ext ".doc" then "application/msword"
  else if String.eqb ext ".docx" then
    "application/vnd.openxmlformats-officedocument.wordprocessingml.document"
  else if String.eqb ext ".xls" then "application/vnd.ms-excel"
  else if String.eqb ext ".xlsx" then
    "application/vnd.openxmlformats-officedocument.spreadsheetml.sheet"
  else "application/octet-stream".

Definition allowedMimeTypes : list string :=
  [ "application/pdf";
    "application/msword";
    "application/vnd.openxmlformats-officedocument.wordprocessingml.document";
    "application/vnd.ms-excel";
    "application/vnd.openxmlformats-officedocument.spreadsheetml.sheet" ].

(** [fileFilter]: the upload is accepted when its declared mime type is
    allowed. *)
Definition fileFilter (mimetype : string) : bool := includes allowedMimeTypes mimetype.

(** [s.endsWith(suffix)]. *)
Definition endsWith (suffix s : string) : bool :=
  (String.length suffix <=? String.length s)%nat
  && String.eqb (substring (String.length s - String.length suffix)
                           (String.length suffix) s) suffix.

(** [path.basename(p, ext)] of Node.js on a name without directory
    separators: [p] without the suffix [ext] when it ends with it, the
    empty string when [ext] is all of [p]. *)
Definition basename (p ext : string) : string :=
  if (0 <? String.length ext)%nat && (String.length ext <=? String.length p)%nat
  then if String.eqb ext p then EmptyString
       else if endsWith ext p
            then substring 0 (String.length p - String.length ext) p
            else p
  else p.

(** The decimal digits of [Date.now()]. *)
Definition decimal (n : nat) : string := NilEmpty.string_of_uint (Nat.to_uint n).

(** The name multer stores an upload under:
    [name + '-' + Date.now() + ext]. *)
Definition stored_filename (originalname : string) (now : nat) : string :=
  let ext := extname originalname in
  let name := basename originalname ext in
  name ++ "-" ++ decimal now ++ ext.

(** *** DELETE /api/files/:filename *)

Inductive http_response :=
| deleted (filename : string)          (* 200 *)
| not_found                            (* 404 *)
| server_error.                        (* 500 *)

(** [fs.unlinkSync]: the entry of that name is gone. *)
Definition unlinkSync (entries : list Sync.dirent) (filename : string) : list Sync.dirent :=
  filter (fun e => negb (String.eqb (Sync.name e) filename)) entries.

(** A path separator in the name: [path.join] then resolves the name
    below or outside the storage root. *)
Fixpoint has_separator (s : string) : bool :=
  match s with
  | EmptyString => false
  | String c rest => Ascii.eqb c "/" || Ascii.eqb c "\" || has_separator rest
  end.

(** A name that [path.join(uploadsDir, filename)] places in the storage
    root itself: one path segment, other than the two dot segments. *)
Definition plain_name (filename : string) : bool :=
  negb (has_separator filename)
  && negb (String.eqb filename "")
  && negb (String.eqb filename ".")
  && negb (String.eqb filename "..").

(** The handler.  [unlink_throws] says whether [fs.unlinkSync] fails on a
    regular file (a storage root that cannot be written, say).  An empty
    name or [.] joins to the storage root itself and [..] to the
    directory of the server, on which [unlinkSync] throws; the handler's
    catch answers 500.  An entry whose stat throws does not exist for
    [fs.existsSync].  A name with a separator, and an entry that is not a
    regular file (a directory, on which [unlinkSync] throws, or a link to
    one or a special file, which it removes), are outside what the flat
    storage root tells: no answer is given for them. *)
Definition delete_route (unlink_throws : bool) (w : Sync.world) (filename : string)
  : option (Sync.world * http_response) :=
  if has_separator filename then None
  else if String.eqb filename "" || String.eqb filename "." then
    match Sync.uploads w with
    | None => Some (w, not_found)
    | Some _ => Some (w, server_error)
    end
  else if String.eqb filename ".." then Some (w, server_error)
  else
    match Sync.uploads w with
    | None => Some (w, not_found)
    | Some entries =>
        match Sync.statSync entries filename with
        | None => Some (w, not_found)
        | Some st =>
            if Sync.isFile st then
              if unlink_throws then Some (w, server_error)
              else
                match Sync.deleteDocument (Sync.es w) filename with
                | (es', _) =>
                    Some ({| Sync.uploads := Some (unlinkSync entries filename);
                             Sync.es := es' |}, deleted filename)
                end
            else None
        end
    end.

End Server.

(* ================================================================== *)
(** ** file-upload.component.ts: snippets, names and icons *)
(* ================================================================== *)

Module Component.

Import JS.

(** The [highlights] of a file; an absent key is [None]. *)
Record Highlights := {
  content : option (list string);
  content_exact : option (list string);         (* 'content.exact' *)
  hl_filename : option (list string);
  hl_originalname : option (list string)
}.

Record FileInfo := {
  filename : string;
  originalname : option string;
  mimetype : option string;
  highlights : option Highlights
}.

(** [a && a.length > 0] for an optional array. *)
Definition non_empty (a : option (list string)) : bool :=
  match a with
  | Some (_ :: _) => true
  | _ => false
  end.

Definition hasContentMatch (file : FileInfo) : bool :=
  match highlights file with
  | None => false
  | Some h => non_empty (content h) || non_empty (content_exact h)
  end.

(** [getHighlightSnippet(file)] with [searchTerm] in the search box; the
    trusted HTML is its text. *)
Definition getHighlightSnippet (searchTerm : string) (file : FileInfo) : string :=
  match highlights file with
  | None => ""
  | Some h =>
      match content_exact h with
      | Some (x :: l) =>
          join " ... " (map (Highlight.processHighlights searchTerm) (x :: l))
      | _ =>
          match content h with
          | Some (x :: l) =>
              join " ... " (map (Highlight.processHighlights searchTerm) (x :: l))
          | _ => ""
          end
      end
  end.

(** [getHighlightedFilename(file)]. *)
Definition getHighlightedFilename (searchTerm : string) (file : FileInfo) : string :=
  let plain := match originalname file with
               | Some n => if String.eqb n "" then filename file else n
               | None => filename file
               end in
  match highlights file with
  | None => plain
  | Some h =>
      match hl_filename h with
      | Some (x :: _) => Highlight.processHighlights searchTerm x
      | _ =>
          match hl_originalname h with
          | Some (x :: _) => Highlight.processHighlights searchTerm x
          | _ => plain
          end
      end
  end.

(** [s.includes(p)]: [p] occurs in [s]. *)
Fixpoint occurs (p s : string) : bool :=
  startsWith p s ||
  match s with
  | EmptyString => false
  | String _ s' => occurs p s'
  end.

(** [getFileIcon(mimetype)]. *)
Definition getFileIcon (mimetype : option string) : string :=
  match mimetype with
  | None => "fa-file-alt"
  | Some m =>
      if String.eqb m "" then "fa-file-alt"
      else if occurs "pdf" m then "fa-file-pdf has-text-danger"
      else if occurs "word" m || occurs "msword" m then "fa-file-word has-text-link"
      else if occurs "excel" m || occurs "spreadsheet" m
           then "fa-file-excel has-text-success"
      else "fa-file-alt"
  end.

End Component.

(* ================================================================== *)
(** ** Properties of the search request and of the index schema *)
(* ================================================================== *)

Module SearchProperties.

Import JS Elasticsearch.
Open Scope Z_scope.

Lemma blank_guard_false (query : string) :
  trim query <> "" ->
  (String.eqb query "" || String.eqb (trim query) "")%bool = false.
Proof.
  intros Hne. apply orb_false_iff. split.
  - apply String.eqb_neq. intros ->. apply Hne. reflexivity.
  - apply String.eqb_neq. exact Hne.
Qed.

Lemma blank_guard_true (query : string) :
  trim query = "" ->
  (String.eqb query "" || String.eqb (trim query) "")%bool = true.
Proof.
  intros He. rewrite He. rewrite String.eqb_refl. apply orb_true_r.
Qed.

Lemma ranked_query (query : string) :
  trim query <> "" ->
  Elasticsearch.query (searchDocuments_body query)
  = bool_query (ranked_should (trim query)) (Some 1).
Proof.
  intros Hne. unfold searchDocuments_body.
  rewrite (blank_guard_false query Hne). reflexivity.
Qed.

Lemma ranked_size (query : string) : size (searchDocuments_body query) = 100.
Proof.
  unfold searchDocuments_body.
  destruct (String.eqb query "" || String.eqb (trim query) "")%bool; reflexivity.
Qed.

(** C1. For a query that is not empty or white space only, the request of
    [searchDocuments] is a bool query whose should-clauses, all on the
    trimmed query and with at least one required to match, fall into
    exactly four tiers: exact phrase on [content.exact] and [filename]
    with boost 100, all terms (and) on filename/content with boost 50,
    fuzzy with prefix length 1 on filename/content with boost 10, any
    term (or) on filename/content with boost 1. *)
Theorem searchDocuments_four_tiers (query : string) :
  trim query <> "" ->
  let qc := Elasticsearch.query (searchDocuments_body query) in
  should_clauses qc = ranked_should (trim query)
  /\ min_should_match qc = Some 1
  /\ Forall (fun c => clause_query c = trim query) (should_clauses qc)
  /\ tiers_of qc =
     [ {| tier_boost := 100; tier_semantics := ExactPhrase;
          tier_fields := ["content.exact"; "filename"]; tier_clauses := 2 |};
       {| tier_boost := 50; tier_semantics := AllTerms;
          tier_fields := ["filename"; "content"]; tier_clauses := 1 |};
       {| tier_boost := 10; tier_semantics := Fuzzy 1;
          tier_fields := ["filename"; "content"]; tier_clauses := 1 |};
       {| tier_boost := 1; tier_semantics := AnyTerm;
          tier_fields := ["filename"; "content"]; tier_clauses := 1 |} ].
Proof.
  intros Hne qc. subst qc. rewrite (ranked_query query Hne).
  repeat split.
  repeat constructor.
Qed.

Lemma searchDocuments_four_tiers_witness :
  trim "quarterly report" <> ""
  /\ List.length (tiers_of (Elasticsearch.query (searchDocuments_body "quarterly report"))) = 4%nat.
Proof.
  split.
  - discriminate.
  - destruct (searchDocuments_four_tiers "quarterly report") as (_ & _ & _ & Ht).
    + discriminate.
    + rewrite Ht. reflexivity.
Defined.

(** C2. The first of the four tiers is the exact-phrase tier, the others
    are the all-terms, the fuzzy and the any-term tier; their boosts are
    100, 50, 10 and 1, and the boost of the exact-phrase tier exceeds the
    sum of the others.  The exact-phrase clauses, all on the trimmed
    query, are the clauses of boost 100.  Hence, when a document's score
    is the sum of the boosts of the clauses it matches, a document that
    matches an exact-phrase clause on the query scores strictly above
    every document that matches none, whatever lower tiers that one
    matches: above one that matches every lower tier, and above one that
    matches through the fuzzy tier only. *)
Theorem exact_tier_outranks_lower_tiers (query : string) :
  trim query <> "" ->
  let qc := Elasticsearch.query (searchDocuments_body query) in
  (exists t1 t2 t3 t4,
      tiers_of qc = [t1; t2; t3; t4]
      /\ tier_semantics t1 = ExactPhrase
      /\ tier_semantics t2 = AllTerms
      /\ tier_semantics t3 = Fuzzy 1
      /\ tier_semantics t4 = AnyTerm
      /\ tier_boost t1 = 100 /\ tier_boost t2 = 50
      /\ tier_boost t3 = 10 /\ tier_boost t4 = 1
      /\ tier_boost t1 > tier_boost t2 + tier_boost t3 + tier_boost t4)
  /\ Forall (fun c => clause_query c = trim query
                      /\ (is_exact_phrase c = true <-> clause_boost c = 100))
            (should_clauses qc)
  /\ (forall d, matches_exact_phrase (trim query) (should_clauses qc) d
                = matches_tier (should_clauses qc) d 100)
  /\ (forall d1 d2 : query_clause -> bool,
        matches_exact_phrase (trim query) (should_clauses qc) d1 = true ->
        matches_exact_phrase (trim query) (should_clauses qc) d2 = false ->
        additive_score (should_clauses qc) d1 > additive_score (should_clauses qc) d2)
  /\ (forall d1 d2 : query_clause -> bool,
        (exists c, In c (should_clauses qc) /\ clause_semantics c = ExactPhrase
                   /\ d1 c = true) ->
        (forall c, In c (should_clauses qc) -> clause_semantics c = ExactPhrase ->
                   d2 c = false) ->
        additive_score (should_clauses qc) d1 > additive_score (should_clauses qc) d2).
Proof.
  intros Hne qc. subst qc. rewrite (ranked_query query Hne).
  assert (Hrank : forall d1 d2 : query_clause -> bool,
    matches_exact_phrase (trim query) (ranked_should (trim query)) d1 = true ->
    matches_exact_phrase (trim query) (ranked_should (trim query)) d2 = false ->
    additive_score (ranked_should (trim query)) d1
    > additive_score (ranked_should (trim query)) d2).
  { intros d1 d2. unfold matches_exact_phrase, additive_score, ranked_should.
    cbn [existsb fold_right clause_boost is_exact_phrase clause_semantics clause_query].
    rewrite !String.eqb_refl. cbn [andb orb].
    generalize (d1 (match_phrase "content.exact" (trim query) 100 0)),
      (d1 (match_phrase "filename" (trim query) 100 0)),
      (d1 (multi_match (trim query) ["filename^2"; "content"] (Some op_and) None None 50)),
      (d1 (multi_match (trim query) ["filename"; "content"] None (Some "AUTO") (Some 1) 10)),
      (d1 (multi_match (trim query) ["filename"; "content"] (Some op_or) None None 1)),
      (d2 (match_phrase "content.exact" (trim query) 100 0)),
      (d2 (match_phrase "filename" (trim query) 100 0)),
      (d2 (multi_match (trim query) ["filename^2"; "content"] (Some op_and) None None 50)),
      (d2 (multi_match (trim query) ["filename"; "content"] None (Some "AUTO") (Some 1) 10)),
      (d2 (multi_match (trim query) ["filename"; "content"] (Some op_or) None None 1)).
    intros e1 e2 a1 f1 o1 e1' e2' a2 f2 o2 H1 H2.
    destruct e1, e2; try discriminate H1;
      destruct e1', e2'; try discriminate H2;
      destruct a1, f1, o1, a2, f2, o2; lia. }
  cbn [should_clauses].
  split; [|split; [|split; [|split; [exact Hrank|]]]].
  - eexists _, _, _, _. split; [reflexivity|]. cbn. repeat split; reflexivity.
  - unfold ranked_should.
    repeat constructor; cbn; try reflexivity; intros; discriminate.
  - intros d. unfold matches_exact_phrase, matches_tier, ranked_should.
    cbn [existsb clause_boost is_exact_phrase clause_semantics clause_query Z.eqb Pos.eqb].
    rewrite !String.eqb_refl. reflexivity.
  - intros d1 d2 (c & Hc & Hsem & Hd1) Hd2. apply Hrank.
    + unfold matches_exact_phrase. apply existsb_exists. exists c.
      split; [exact Hc|]. unfold is_exact_phrase. rewrite Hsem, Hd1.
      assert (Hq : clause_query c = trim query).
      { unfold ranked_should in Hc. cbn in Hc.
        destruct Hc as [<-|[<-|[<-|[<-|[<-|[]]]]]]; reflexivity. }
      rewrite Hq, String.eqb_refl. reflexivity.
    + unfold matches_exact_phrase.
      destruct (existsb _ (ranked_should (trim query))) eqn:Ex; [|reflexivity].
      apply existsb_exists in Ex. destruct Ex as (c' & Hc' & Hx).
      apply andb_true_iff in Hx. destruct Hx as [Hx Hd].
      apply andb_true_iff in Hx. destruct Hx as [Hx _].
      unfold is_exact_phrase in Hx.
      destruct (clause_semantics c') eqn:Hsem'; try discriminate Hx.
      rewrite (Hd2 c' Hc' Hsem') in Hd. discriminate.
Qed.

Lemma exact_tier_outranks_lower_tiers_witness :
  trim "quarterly report" <> ""
  /\ matches_exact_phrase "quarterly report" (ranked_should "quarterly report")
       matches_everything = true
  /\ matches_exact_phrase "quarterly report" (ranked_should "quarterly report")
       matches_fuzzy_only = false
  /\ additive_score (ranked_should "quarterly report") matches_everything
     > additive_score (ranked_should "quarterly report") matches_fuzzy_only.
Proof.
  split; [discriminate|]. split; [reflexivity|]. split; [reflexivity|].
  destruct (exact_tier_outranks_lower_tiers "quarterly report") as (_ & _ & _ & H & _).
  - discriminate.
  - apply (H matches_everything matches_fuzzy_only); reflexivity.
Defined.

(** C6, as stated, fails: the listing sent for an empty query is capped at
    100 documents, the list-all request at 10000. *)
Lemma empty_query_cap_differs_from_list_all :
  trim "" = ""
  /\ Elasticsearch.query (searchDocuments_body "") = match_all
  /\ size (searchDocuments_body "") = 100
  /\ size getAllDocuments_body = 10000
  /\ size (searchDocuments_body "") <> size getAllDocuments_body.
Proof.
  repeat split. discriminate.
Qed.

(** C6, amended. For an empty or white-space-only query the request is an
    unranked match-all listing without highlighting, capped at 100
    documents; that is the cap of every request of [searchDocuments], the
    ranked one included, and is below the cap 10000 of [getAllDocuments]. *)
Theorem blank_query_lists_first_hundred (query : string) :
  trim query = "" ->
  searchDocuments_body query
  = {| Elasticsearch.query := match_all; highlight := None; size := 100 |}
  /\ (forall query', size (searchDocuments_body query') = size (searchDocuments_body query))
  /\ size getAllDocuments_body = 10000
  /\ size (searchDocuments_body query) < size getAllDocuments_body.
Proof.
  intros Hb. unfold searchDocuments_body at 1.
  rewrite (blank_guard_true query Hb). split; [reflexivity|].
  split; [intros; now rewrite !ranked_size|].
  split; [reflexivity|]. rewrite ranked_size. reflexivity.
Qed.

Lemma blank_query_lists_first_hundred_witness :
  trim "   " = ""
  /\ size (searchDocuments_body "   ") = 100.
Proof.
  split.
  - reflexivity.
  - destruct (blank_query_lists_first_hundred "   ") as [H _].
    + reflexivity.
    + rewrite H. reflexivity.
Defined.

(** C7, on the code. The ranked request for the query [abc123] targets the
    filename-like field [filename], and the schema of [initElasticsearch]
    has no mapping for that field, so no analyzer is assigned to it; the
    word-delimiter analyzer is assigned to [originalname] only, which the
    request does not target.  The sub-field [content.exact] is present,
    of type text with the whitespace analyzer. *)
Theorem filename_field_has_no_analyzer :
  let qc := Elasticsearch.query (searchDocuments_body "abc123") in
  let props := mappings_properties initElasticsearch_body in
  targeted_fields qc = ["content.exact"; "filename"; "content"]
  /\ filter filename_like (targeted_fields qc) = ["filename"]
  /\ mapping_of props "filename" = None
  /\ field_has_filename_analysis initElasticsearch_body "filename" = false
  /\ field_has_filename_analysis initElasticsearch_body "originalname" = true
  /\ mapping_of props "content.exact" = Some (FieldMapping "text" (Some "whitespace") []).
Proof.
  repeat split.
Qed.

End SearchProperties.

(* ================================================================== *)
(** ** Properties of the index operations and of the reconciliation *)
(* ================================================================== *)

Module SyncProperties.

Import JS Elasticsearch Sync.

(** *** Lists of names *)

Lemma includes_In (l : list string) (x : string) : includes l x = true <-> In x l.
Proof.
  unfold includes. rewrite existsb_exists. split.
  - intros (y & Hy & He). apply String.eqb_eq in He. now subst.
  - intros H. exists x. split; [exact H | apply String.eqb_refl].
Qed.

Lemma includes_notin (l : list string) (x : string) : includes l x = false <-> ~ In x l.
Proof.
  rewrite <- includes_In. destruct (includes l x); split; congruence.
Qed.

Lemma filter_all {A} (f : A -> bool) (l : list A) :
  (forall x, In x l -> f x = true) -> filter f l = l.
Proof.
  induction l as [|a l IH]; intros H; simpl; [reflexivity|].
  rewrite (H a (or_introl eq_refl)). f_equal. apply IH. intros x Hx. apply H. now right.
Qed.

Lemma filter_none {A} (f : A -> bool) (l : list A) :
  (forall x, In x l -> f x = false) -> filter f l = [].
Proof.
  induction l as [|a l IH]; intros H; simpl; [reflexivity|].
  rewrite (H a (or_introl eq_refl)). apply IH. intros x Hx. apply H. now right.
Qed.

Lemma filter_filter {A} (f g : A -> bool) (l : list A) :
  filter g (filter f l) = filter (fun x => f x && g x) l.
Proof.
  induction l as [|a l IH]; simpl; [reflexivity|].
  destruct (f a); simpl; [destruct (g a)|]; now rewrite IH.
Qed.

Lemma in_ids (h : hit) (ds : list hit) : In h ds -> In (_id h) (ids ds).
Proof. apply in_map. Qed.

(** *** deleteDocument *)

Lemma client_delete_index (w : es_world) (id : string) :
  es_index (fst (client_delete w id))
  = option_map (filter (fun h => negb (String.eqb (_id h) id))) (es_index w).
Proof.
  unfold client_delete. destruct (es_index w) as [ds|]; [|reflexivity].
  destruct (includes (ids ds) id) eqn:Hin; simpl; [reflexivity|].
  f_equal. symmetry. apply filter_all. intros h Hh.
  apply negb_true_iff, String.eqb_neq. intros He.
  apply includes_notin in Hin. apply Hin. rewrite <- He. now apply in_ids.
Qed.

Lemma client_delete_calls (w : es_world) (id : string) :
  es_calls (fst (client_delete w id)) = (es_calls w ++ [call_delete id])%list.
Proof.
  unfold client_delete. destruct (es_index w) as [ds|]; [|reflexivity].
  destruct (includes (ids ds) id); reflexivity.
Qed.

Lemma deleteDocument_world (w : es_world) (id : string) :
  fst (deleteDocument w id) = fst (client_delete w id).
Proof.
  unfold deleteDocument. destruct (client_delete w id) as [w' [u|status]]; simpl.
  - reflexivity.
  - destruct (negb (status =? 404)%Z); reflexivity.
Qed.

Lemma deleteDocument_returns (w : es_world) (id : string) :
  snd (deleteDocument w id) = returned tt.
Proof.
  unfold deleteDocument. destruct (client_delete w id) as [w' [u|status]]; simpl.
  - reflexivity.
  - destruct (negb (status =? 404)%Z); reflexivity.
Qed.

Lemma delete_orphans_index (l : list hit) (w : es_world) :
  es_index (delete_orphans w l)
  = option_map (filter (fun h => negb (includes (ids l) (_id h)))) (es_index w).
Proof.
  revert w. induction l as [|d l IH]; intros w; simpl.
  - destruct (es_index w) as [ds|]; simpl; [|reflexivity].
    f_equal. symmetry. now apply filter_all.
  - rewrite IH, deleteDocument_world, client_delete_index.
    destruct (es_index w) as [ds|]; simpl; [|reflexivity].
    f_equal. rewrite filter_filter. apply filter_ext. intros h.
    unfold includes. simpl. now rewrite negb_orb.
Qed.

Lemma delete_orphans_calls (l : list hit) (w : es_world) :
  es_calls (delete_orphans w l) = (es_calls w ++ map call_delete (ids l))%list.
Proof.
  revert w. induction l as [|d l IH]; intros w; simpl.
  - now rewrite app_nil_r.
  - rewrite IH, deleteDocument_world, client_delete_calls, <- app_assoc. reflexivity.
Qed.

Lemma docs_index (w : es_world) (f : list hit -> list hit) :
  f [] = [] ->
  forall w', es_index w' = option_map f (es_index w) -> docs w' = f (docs w).
Proof.
  intros Hf w' H. unfold docs. rewrite H. destruct (es_index w); simpl; auto.
Qed.

Lemma delete_orphans_keeps (l : list hit) (w : es_world) :
  docs (delete_orphans w l)
  = filter (fun h => negb (includes (ids l) (_id h))) (docs w).
Proof.
  exact (docs_index w _ eq_refl _ (delete_orphans_index l w)).
Qed.

(** Deleting the orphans of a listing that shows the whole index leaves
    the documents that have a file. *)
Lemma delete_orphans_docs (files : list string) (w : es_world) :
  docs (delete_orphans w (filter (fun doc => negb (includes files (_id doc))) (docs w)))
  = filter (fun h => includes files (_id h)) (docs w).
Proof.
  rewrite delete_orphans_keeps.
  apply filter_ext_in. intros h Hh.
  destruct (includes files (_id h)) eqn:Hf.
  - apply negb_true_iff, includes_notin. intros Hin.
    unfold ids in Hin. apply in_map_iff in Hin. destruct Hin as (h' & He & Hh').
    apply filter_In in Hh'. destruct Hh' as [_ Hh'].
    rewrite He, Hf in Hh'. discriminate.
  - apply negb_false_iff, includes_In. apply in_ids.
    apply filter_In. split; [exact Hh|]. now rewrite Hf.
Qed.


(** *** indexDocument and the loop over the new files *)

Lemma upsert_ids (h : hit) (ds : list hit) (x : string) :
  In x (ids (upsert h ds)) <-> x = _id h \/ In x (ids ds).
Proof.
  induction ds as [|d ds IH]; simpl.
  - intuition.
  - destruct (String.eqb (_id d) (_id h)) eqn:He; simpl.
    + apply String.eqb_eq in He. rewrite He. intuition.
    + rewrite IH. intuition.
Qed.

Lemma upsert_app (h : hit) (base added : list hit) :
  ~ In (_id h) (ids base) ->
  upsert h (base ++ added) = (base ++ upsert h added)%list.
Proof.
  induction base as [|d base IH]; intros Hn; simpl; [reflexivity|].
  destruct (String.eqb (_id d) (_id h)) eqn:He.
  - apply String.eqb_eq in He. exfalso. apply Hn. left. exact He.
  - f_equal. apply IH. intros Hin. apply Hn. now right.
Qed.

Section Loop.

Variable env : environment.
Variable entries : list dirent.

(** One turn of the loop, by cases. *)
Lemma index_new_files_unsupported w f l ic sc :
  getMimeType f = None ->
  index_new_files env entries w (f :: l) ic sc
  = index_new_files env entries w l ic (S sc).
Proof. intros H. simpl. now rewrite H. Qed.

Lemma index_new_files_missing w f l ic sc m :
  getMimeType f = Some m -> statSync entries f = None ->
  index_new_files env entries w (f :: l) ic sc
  = index_new_files env entries w l ic sc.
Proof. intros H1 H2. simpl. now rewrite H1, H2. Qed.

Lemma index_new_files_refused w f l ic sc :
  refused env entries f = true ->
  index_new_files env entries w (f :: l) ic sc
  = index_new_files env entries
      {| es_index := es_index w; es_calls := es_calls w ++ [call_index f] |} l ic sc.
Proof.
  unfold refused. intros H. simpl.
  destruct (getMimeType f) as [m|]; [|discriminate].
  destruct (statSync entries f) as [st|]; [|discriminate].
  unfold indexDocument, client_index. rewrite H. reflexivity.
Qed.

Lemma index_new_files_accepted w f l ic sc m st :
  getMimeType f = Some m -> statSync entries f = Some st ->
  refused env entries f = false ->
  index_new_files env entries w (f :: l) ic sc
  = index_new_files env entries
      {| es_index := Some (upsert {| _id := f;
                                     _source := source_of env (new_document env st f m) |}
                                  (docs w));
         es_calls := es_calls w ++ [call_index f] |} l (S ic) sc.
Proof.
  unfold refused. intros H1 H2 H. simpl. rewrite H1, H2 in *.
  unfold indexDocument, client_index. rewrite H. reflexivity.
Qed.

(** The four cases cover every file. *)
Lemma turn_cases (f : string) : turn env entries f.
Proof.
  destruct (getMimeType f) as [m|] eqn:Hm; [|now apply turn_unsupported].
  destruct (statSync entries f) as [st|] eqn:Hs; [|now apply (turn_missing env entries f m)].
  destruct (refused env entries f) eqn:Hr; [now apply turn_refused|].
  now apply (turn_accepted env entries f m st).
Qed.

(** The loop only adds ids. *)
Lemma loop_keeps_ids l : forall w ic sc x,
  In x (ids (docs w)) -> In x (ids (docs (loop_world env entries w l ic sc))).
Proof.
  unfold loop_world.
  induction l as [|f l IH]; intros w ic sc x Hx; [exact Hx|].
  destruct (turn_cases f) as [H|m H1 H2|H|m st H1 H2 H].
  - rewrite index_new_files_unsupported by assumption. now apply IH.
  - rewrite (index_new_files_missing _ _ _ _ _ m) by assumption. now apply IH.
  - rewrite index_new_files_refused by assumption. now apply IH.
  - rewrite (index_new_files_accepted _ _ _ _ _ m st) by assumption.
    apply IH. unfold docs at 1. simpl. apply upsert_ids. now right.
Qed.

(** A file of the list that is looked at and not refused is indexed. *)
Lemma loop_indexes l : forall w ic sc f m st,
  In f l ->
  getMimeType f = Some m -> statSync entries f = Some st ->
  refused env entries f = false ->
  In f (ids (docs (loop_world env entries w l ic sc))).
Proof.
  induction l as [|g l IH]; intros w ic sc f m st Hin Hm Hs Hr; [destruct Hin|].
  destruct Hin as [->|Hin].
  - unfold loop_world. rewrite (index_new_files_accepted _ _ _ _ _ m st) by assumption.
    apply loop_keeps_ids. unfold docs at 1. simpl. apply upsert_ids. now left.
  - unfold loop_world.
    destruct (turn_cases g) as [H|m' H1 H2|H|m' st' H1 H2 H].
    + rewrite index_new_files_unsupported by assumption. now apply (IH _ _ _ f m st).
    + rewrite (index_new_files_missing _ _ _ _ _ m') by assumption. now apply (IH _ _ _ f m st).
    + rewrite index_new_files_refused by assumption. now apply (IH _ _ _ f m st).
    + rewrite (index_new_files_accepted _ _ _ _ _ m' st') by assumption.
      now apply (IH _ _ _ f m st).
Qed.

(** Documents whose id is not among the new files stay where they are:
    the loop works behind them. *)
Lemma loop_appends l : forall w ic sc base added,
  (forall f, In f l -> ~ In f (ids base)) ->
  docs w = (base ++ added)%list ->
  exists added',
    docs (loop_world env entries w l ic sc) = (base ++ added')%list
    /\ forall x, In x (ids added') -> In x (ids added) \/ In x l.
Proof.
  unfold loop_world.
  induction l as [|f l IH]; intros w ic sc base added Hb Hd.
  - exists added. split; [exact Hd | intros; now left].
  - assert (Hb' : forall g, In g l -> ~ In g (ids base))
      by (intros g Hg; apply Hb; now right).
    destruct (turn_cases f) as [H|m H1 H2|H|m st H1 H2 H].
    + rewrite index_new_files_unsupported by assumption.
      destruct (IH w ic (S sc) base added Hb' Hd) as (a' & E & I).
      exists a'. split; [exact E|]. intros x Hx. destruct (I x Hx); [now left | right; now right].
    + rewrite (index_new_files_missing _ _ _ _ _ m) by assumption.
      destruct (IH w ic sc base added Hb' Hd) as (a' & E & I).
      exists a'. split; [exact E|]. intros x Hx. destruct (I x Hx); [now left | right; now right].
    + rewrite index_new_files_refused by assumption.
      destruct (IH {| es_index := es_index w; es_calls := es_calls w ++ [call_index f] |}
                   ic sc base added Hb' Hd) as (a' & E & I).
      exists a'. split; [exact E|]. intros x Hx. destruct (I x Hx); [now left | right; now right].
    + rewrite (index_new_files_accepted _ _ _ _ _ m st) by assumption.
      set (h := {| _id := f; _source := source_of env (new_document env st f m) |}).
      destruct (IH {| es_index := Some (upsert h (docs w));
                      es_calls := es_calls w ++ [call_index f] |}
                   (S ic) sc base (upsert h added) Hb') as (a' & E & I).
      { unfold docs at 1. simpl. rewrite Hd. apply upsert_app. apply Hb. now left. }
      exists a'. split; [exact E|]. intros x Hx. destruct (I x Hx) as [Hu|Hl].
      * apply upsert_ids in Hu. destruct Hu as [->|Hu]; [right; now left | now left].
      * right. now right.
Qed.

(** The loop sends index requests only. *)
Lemma loop_calls l : forall w ic sc,
  exists cs, es_calls (loop_world env entries w l ic sc) = (es_calls w ++ cs)%list
             /\ forallb is_index cs = true.
Proof.
  unfold loop_world.
  induction l as [|f l IH]; intros w ic sc.
  - exists []. split; [now rewrite app_nil_r | reflexivity].
  - destruct (turn_cases f) as [H|m H1 H2|H|m st H1 H2 H].
    + rewrite index_new_files_unsupported by assumption. apply IH.
    + rewrite (index_new_files_missing _ _ _ _ _ m) by assumption. apply IH.
    + rewrite index_new_files_refused by assumption.
      destruct (IH {| es_index := es_index w; es_calls := es_calls w ++ [call_index f] |} ic sc)
        as (cs & E & F).
      exists (call_index f :: cs). split; [|exact F].
      rewrite E. simpl. now rewrite <- app_assoc.
    + rewrite (index_new_files_accepted _ _ _ _ _ m st) by assumption.
      match goal with |- context [index_new_files env entries ?w' l ?i ?s] =>
        destruct (IH w' i s) as (cs & E & F) end.
      exists (call_index f :: cs). split; [|exact F].
      rewrite E. simpl. now rewrite <- app_assoc.
Qed.

(** Supported files are never counted as skipped. *)
Lemma loop_skips_nothing l : forall w ic sc,
  (forall f, In f l -> isSupportedFileType f = true) ->
  loop_skipped env entries w l ic sc = sc.
Proof.
  unfold loop_skipped.
  induction l as [|f l IH]; intros w ic sc Hs; [reflexivity|].
  assert (Hs' : forall g, In g l -> isSupportedFileType g = true)
    by (intros g Hg; apply Hs; now right).
  destruct (turn_cases f) as [H|m H1 H2|H|m st H1 H2 H].
  - specialize (Hs f (or_introl eq_refl)). unfold isSupportedFileType in Hs.
    rewrite H in Hs. discriminate.
  - rewrite (index_new_files_missing _ _ _ _ _ m) by assumption. now apply IH.
  - rewrite index_new_files_refused by assumption. now apply IH.
  - rewrite (index_new_files_accepted _ _ _ _ _ m st) by assumption. now apply IH.
Qed.

(** When every file of the list is refused, the loop changes nothing but
    the record of requests. *)
Lemma loop_all_refused l : forall w ic sc,
  (forall f, In f l -> refused env entries f = true) ->
  index_new_files env entries w l ic sc
  = ({| es_index := es_index w; es_calls := es_calls w ++ map call_index l |}, ic, sc).
Proof.
  induction l as [|f l IH]; intros w ic sc Hr.
  - simpl. rewrite app_nil_r. now destruct w.
  - rewrite index_new_files_refused by (apply Hr; now left).
    rewrite IH by (intros g Hg; apply Hr; now right).
    simpl. now rewrite <- app_assoc.
Qed.

(** An id the loop leaves in the index was there before, or is a file of
    the list that the service did not refuse. *)
Lemma loop_ids l : forall w ic sc x,
  In x (ids (docs (loop_world env entries w l ic sc))) ->
  In x (ids (docs w)) \/ (In x l /\ refused env entries x = false).
Proof.
  unfold loop_world.
  induction l as [|f l IH]; intros w ic sc x Hx; [now left|].
  destruct (turn_cases f) as [H|m H1 H2|H|m st H1 H2 H].
  - rewrite index_new_files_unsupported in Hx by assumption.
    destruct (IH _ _ _ _ Hx) as [Hw|[Hl Hr]]; [now left | right; split; [now right | exact Hr]].
  - rewrite (index_new_files_missing _ _ _ _ _ m) in Hx by assumption.
    destruct (IH _ _ _ _ Hx) as [Hw|[Hl Hr]]; [now left | right; split; [now right | exact Hr]].
  - rewrite index_new_files_refused in Hx by assumption.
    destruct (IH _ _ _ _ Hx) as [Hw|[Hl Hr]]; [now left | right; split; [now right | exact Hr]].
  - rewrite (index_new_files_accepted _ _ _ _ _ m st) in Hx by assumption.
    destruct (IH _ _ _ _ Hx) as [Hw|[Hl Hr]]; [|right; split; [now right | exact Hr]].
    unfold docs at 1 in Hw. simpl in Hw. apply upsert_ids in Hw.
    destruct Hw as [->|Hw]; [right; split; [now left | exact H] | now left].
Qed.

(** When every file of the list has a supported type and can be stat'ed,
    the loop sends one index request for each, in order, whatever the
    service answers. *)
Lemma loop_calls_all l : forall w ic sc,
  (forall f, In f l -> getMimeType f <> None /\ statSync entries f <> None) ->
  es_calls (loop_world env entries w l ic sc) = (es_calls w ++ map call_index l)%list.
Proof.
  unfold loop_world.
  induction l as [|f l IH]; intros w ic sc Hall; [simpl; now rewrite app_nil_r|].
  assert (Hall' : forall g, In g l -> getMimeType g <> None /\ statSync entries g <> None)
    by (intros g Hg; apply Hall; now right).
  destruct (Hall f (or_introl eq_refl)) as [Hm Hs].
  destruct (turn_cases f) as [H|m H1 H2|H|m st H1 H2 H].
  - now elim Hm.
  - now elim Hs.
  - rewrite index_new_files_refused by assumption.
    rewrite IH by exact Hall'. simpl. now rewrite <- app_assoc.
  - rewrite (index_new_files_accepted _ _ _ _ _ m st) by assumption.
    rewrite IH by exact Hall'. simpl. now rewrite <- app_assoc.
Qed.

End Loop.


(** *** The run as a whole *)

Lemma getAllDocuments_listing (w : es_world) : getAllDocuments w = returned (listing w).
Proof.
  unfold getAllDocuments, getAllDocuments_catch, listing, client_search_match_all, docs.
  destruct (es_index w) as [ds|]; reflexivity.
Qed.

(** A listing that succeeds gives the regular, non-hidden names, and every
    entry has stats. *)
Lemma listed_regular_names (entries : list dirent) : forall files,
  filesInDirectory entries = listed files -> files = regular_names entries.
Proof.
  induction entries as [|e entries IH]; intros files H; cbn [filesInDirectory] in H.
  - now injection H as <-.
  - destruct (stats e) as [st|] eqn:Es; [|discriminate].
    destruct (filesInDirectory entries) as [fs|f]; [|discriminate].
    remember (isFile st && negb (startsWith "." (name e))) as keep eqn:Ek.
    injection H as <-. rewrite (IH fs eq_refl).
    unfold regular_names. cbn [filter]. rewrite Es, <- Ek.
    now destruct keep.
Qed.

Lemma listed_stats (entries : list dirent) : forall files,
  filesInDirectory entries = listed files ->
  forall e, In e entries -> stats e <> None.
Proof.
  induction entries as [|e entries IH]; intros files H x Hx; simpl in H; [destruct Hx|].
  destruct (stats e) as [st|] eqn:Es; [|discriminate].
  destruct (filesInDirectory entries) as [fs|f]; [|discriminate].
  destruct Hx as [<-|Hx]; [now rewrite Es | now apply (IH fs)].
Qed.

Lemma stats_listed (entries : list dirent) :
  (forall e, In e entries -> stats e <> None) ->
  filesInDirectory entries = listed (regular_names entries).
Proof.
  induction entries as [|e entries IH]; intros H; [reflexivity|].
  cbn [filesInDirectory]. unfold regular_names. cbn [filter].
  destruct (stats e) as [st|] eqn:Es.
  - rewrite IH by (intros x Hx; apply H; now right).
    unfold regular_names.
    now destruct (isFile st && negb (startsWith "." (name e))).
  - exfalso. now apply (H e (or_introl eq_refl)).
Qed.

(** When a stat throws in the listing the run ends there: nothing is
    asked of the index service. *)
Lemma sync_stat_throws (env : environment) (w : world) (entries : list dirent) (f : string) :
  uploads w = Some entries ->
  filesInDirectory entries = stat_throws f ->
  syncFilesWithElasticsearch env w = (w, stat_failed f).
Proof.
  intros Hu Hl. unfold syncFilesWithElasticsearch. now rewrite Hu, Hl.
Qed.

Lemma listing_all (w : es_world) :
  (Z.of_nat (List.length (docs w)) <= size getAllDocuments_body)%Z ->
  listing w = docs w.
Proof.
  intros H. unfold listing. apply firstn_all2.
  change (size getAllDocuments_body) with 10000%Z in *. lia.
Qed.

Lemma sync_with_directory (env : environment) (w : world) (entries : list dirent)
      (files : list string) :
  uploads w = Some entries ->
  filesInDirectory entries = listed files ->
  syncFilesWithElasticsearch env w
  = let orphaned := Sync.orphans entries (listing (es w)) in
    let newFiles := new_files entries (listing (es w)) in
    let es1 := delete_orphans (es w) orphaned in
    ({| uploads := Some entries;
        es := loop_world env entries es1 newFiles 0 0 |},
     synced orphaned newFiles
            {| orphansRemoved := List.length orphaned;
               indexedCount := loop_indexed env entries es1 newFiles 0 0;
               skippedCount := loop_skipped env entries es1 newFiles 0 0 |}).
Proof.
  intros Hu Hl. unfold syncFilesWithElasticsearch.
  rewrite Hu, Hl, getAllDocuments_listing, (listed_regular_names entries files Hl).
  cbv zeta. unfold loop_world, loop_indexed, loop_skipped, Sync.orphans, new_files.
  destruct (index_new_files env entries _ _ 0 0) as [[es2 ic] sc]. reflexivity.
Qed.

Lemma new_files_spec (entries : list dirent) (listed : list hit) (f : string) :
  In f (new_files entries listed)
  <-> In f (regular_names entries) /\ ~ In f (ids listed)
      /\ isSupportedFileType f = true.
Proof.
  unfold new_files. rewrite filter_In, andb_true_iff, negb_true_iff, includes_notin.
  tauto.
Qed.

Lemma statSync_finds (entries : list dirent) (f : string) :
  (forall e, In e entries -> stats e <> None) ->
  In f (map name entries) -> statSync entries f <> None.
Proof.
  induction entries as [|e entries IH]; simpl; [tauto|].
  intros Hst [He|Hin].
  - rewrite He, String.eqb_refl. apply Hst. now left.
  - destruct (String.eqb (name e) f).
    + apply Hst. now left.
    + apply IH; [|exact Hin]. intros x Hx. apply Hst. now right.
Qed.

Lemma regular_names_names (entries : list dirent) (f : string) :
  In f (regular_names entries) -> In f (map name entries).
Proof.
  unfold regular_names. rewrite !in_map_iff.
  intros (e & He & Hin). apply filter_In in Hin. exists e. tauto.
Qed.


Lemma client_delete_absent (w : es_world) (id : string) :
  ~ In id (ids (docs w)) ->
  client_delete w id
  = ({| es_index := es_index w; es_calls := es_calls w ++ [call_delete id] |}, error 404).
Proof.
  intros Hn. apply includes_notin in Hn.
  unfold client_delete, docs in *.
  destruct (es_index w) as [ds|]; [now rewrite Hn | reflexivity].
Qed.

(** C9. Deleting an id the index does not hold: the client answers 404,
    and [deleteDocument] returns to its caller without throwing, the
    index left as it was. *)
Theorem deleteDocument_absent_succeeds (w : es_world) (id : string) :
  ~ In id (ids (docs w)) ->
  snd (client_delete w id) = error 404
  /\ deleteDocument w id
     = ({| es_index := es_index w; es_calls := es_calls w ++ [call_delete id] |},
        returned tt).
Proof.
  intros Hn. unfold deleteDocument. rewrite (client_delete_absent w id Hn).
  split; reflexivity.
Qed.

Lemma deleteDocument_absent_succeeds_witness :
  ~ In "gone.pdf" (ids (docs idle))
  /\ snd (deleteDocument idle "gone.pdf") = returned tt.
Proof.
  assert (H : ~ In "gone.pdf" (ids (docs idle))) by (simpl; tauto).
  split; [exact H|].
  destruct (deleteDocument_absent_succeeds idle "gone.pdf" H) as [_ E].
  rewrite E. reflexivity.
Defined.

(** C10. Without a storage root the run creates the directory and returns
    at once: the index service is as before, its documents and the
    requests it has received alike, although every indexed document is an
    orphan of the directory just created. *)
Theorem sync_without_directory (env : environment) (w : world) :
  uploads w = None ->
  syncFilesWithElasticsearch env w = ({| uploads := Some []; es := es w |}, no_directory)
  /\ es (fst (syncFilesWithElasticsearch env w)) = es w
  /\ Sync.orphans [] (docs (es w)) = docs (es w).
Proof.
  intros Hu. unfold syncFilesWithElasticsearch. rewrite Hu.
  repeat split. unfold Sync.orphans. now apply filter_all.
Qed.

Lemma sync_without_directory_witness :
  uploads rootless_world = None
  /\ docs (es (fst (syncFilesWithElasticsearch quiet rootless_world))) = [stored "a.pdf"]
  /\ es_calls (es (fst (syncFilesWithElasticsearch quiet rootless_world))) = [].
Proof.
  split; [reflexivity|].
  destruct (sync_without_directory quiet rootless_world eq_refl) as (_ & E & _).
  rewrite E. split; reflexivity.
Defined.

(** The branch that counts skipped files is never taken: the new files
    are filtered to the supported types before the loop. *)
Lemma skippedCount_is_zero (env : environment) (w w' : world) orphaned newFiles s :
  syncFilesWithElasticsearch env w = (w', synced orphaned newFiles s) ->
  skippedCount s = 0%nat.
Proof.
  destruct (uploads w) as [entries|] eqn:Hu.
  - destruct (filesInDirectory entries) as [files|f] eqn:Hl.
    + rewrite (sync_with_directory env w entries files Hu Hl). cbv zeta. intros H.
      injection H as _ _ _ Hs. subst s. simpl.
      apply loop_skips_nothing. intros g Hg. now apply new_files_spec in Hg.
    + rewrite (sync_stat_throws env w entries f Hu Hl). discriminate.
  - unfold syncFilesWithElasticsearch. rewrite Hu. discriminate.
Qed.

(** C8, on the code. With the text file [notes.txt] in the storage root
    and an empty index, the file is neither indexed nor an error, and the
    run reports no skipped file, while one file entry of unsupported type
    is absent from the index. *)
Theorem unsupported_file_not_counted :
  unsupported_unindexed [regular_file "notes.txt"] [] = ["notes.txt"]
  /\ syncFilesWithElasticsearch quiet text_file_world
     = (text_file_world,
        synced [] [] {| orphansRemoved := 0; indexedCount := 0; skippedCount := 0 |}).
Proof.
  split; reflexivity.
Qed.

(** C4, as stated, fails: with 10001 indexed documents and an empty
    storage root, the last document is an orphan and is still indexed
    after the run.  It fails also when the root holds a link whose target
    is gone: the listing throws, and the orphan of a small index stays. *)
Lemma orphan_beyond_listing_survives :
  uploads crowded_world = Some []
  /\ In (stored (numbered (Z.to_nat 10000))) (Sync.orphans [] (docs (es crowded_world)))
  /\ In (stored (numbered (Z.to_nat 10000)))
        (docs (es (fst (syncFilesWithElasticsearch quiet crowded_world))))
  /\ Sync.orphans [regular_file "a.pdf"; dangling_link "link.pdf"]
                  (docs (es broken_link_world)) = [stored "gone.pdf"]
  /\ syncFilesWithElasticsearch quiet broken_link_world
     = (broken_link_world, stat_failed "link.pdf").
Proof.
  assert (Hlast : In (stored (numbered (Z.to_nat 10000))) (docs (es crowded_world))).
  { unfold crowded_world, docs, many. cbn [es es_index].
    apply in_map_iff. exists (Z.to_nat 10000). split; [reflexivity|].
    apply in_seq. split; [apply Nat.le_0_l|].
    apply Nat.ltb_lt. vm_compute. reflexivity. }
  split; [reflexivity|]. split; [|split; [|split; reflexivity]].
  - unfold Sync.orphans. refine (proj2 (filter_In _ _ _) (conj Hlast _)). reflexivity.
  - rewrite (sync_with_directory quiet crowded_world [] [] eq_refl eq_refl). cbv zeta.
    change (new_files [] (listing (es crowded_world))) with (@nil string).
    unfold loop_world. cbn [fst index_new_files es].
    rewrite delete_orphans_keeps.
    refine (proj2 (filter_In _ _ _) (conj Hlast _)).
    vm_compute. reflexivity.
Qed.

(** A run in an existing storage root that can be listed, with the whole
    index listed. *)
Lemma sync_run (env : environment) (w : world) (entries : list dirent)
      (files : list string) :
  uploads w = Some entries ->
  filesInDirectory entries = listed files ->
  (Z.of_nat (List.length (docs (es w))) <= size getAllDocuments_body)%Z ->
  exists s added index_calls,
    syncFilesWithElasticsearch env w
    = ({| uploads := Some entries;
          es := loop_world env entries
                  (delete_orphans (es w) (Sync.orphans entries (docs (es w))))
                  (new_files entries (docs (es w))) 0 0 |},
       synced (Sync.orphans entries (docs (es w))) (new_files entries (docs (es w))) s)
    /\ orphansRemoved s = List.length (Sync.orphans entries (docs (es w)))
    /\ es_calls (loop_world env entries
                   (delete_orphans (es w) (Sync.orphans entries (docs (es w))))
                   (new_files entries (docs (es w))) 0 0)
       = (es_calls (es w)
          ++ map call_delete (ids (Sync.orphans entries (docs (es w))))
          ++ index_calls)%list
    /\ forallb is_index index_calls = true
    /\ docs (loop_world env entries
                (delete_orphans (es w) (Sync.orphans entries (docs (es w))))
                (new_files entries (docs (es w))) 0 0)
       = (filter (fun h => includes (regular_names entries) (_id h)) (docs (es w))
          ++ added)%list
    /\ (forall x, In x (ids added) -> In x (new_files entries (docs (es w)))).
Proof.
  intros Hu Hl Hcap.
  rewrite (sync_with_directory env w entries files Hu Hl), (listing_all (es w) Hcap).
  cbv zeta.
  set (orphaned := Sync.orphans entries (docs (es w))).
  set (newFiles := new_files entries (docs (es w))).
  set (es1 := delete_orphans (es w) orphaned).
  set (survivors := filter (fun h => includes (regular_names entries) (_id h)) (docs (es w))).
  assert (Hes1 : docs es1 = survivors) by apply delete_orphans_docs.
  assert (Hnew : forall f, In f newFiles -> ~ In f (ids survivors)).
  { intros f Hf Hin. apply new_files_spec in Hf. destruct Hf as (_ & Hn & _).
    apply Hn. unfold ids, survivors in *. apply in_map_iff in Hin.
    destruct Hin as (h & He & Hh). apply filter_In in Hh.
    apply in_map_iff. exists h. tauto. }
  destruct (loop_appends env entries newFiles es1 0%nat 0%nat survivors [] Hnew)
    as (added & Hdocs & Hadded).
  { now rewrite app_nil_r. }
  destruct (loop_calls env entries newFiles es1 0%nat 0%nat) as (cs & Hcalls & Hcs).
  eexists _, added, cs. split; [reflexivity|]. cbn [orphansRemoved].
  split; [reflexivity|].
  split. { rewrite Hcalls. unfold es1. now rewrite delete_orphans_calls, <- app_assoc. }
  split; [exact Hcs|].
  split; [exact Hdocs|].
  intros x Hx. destruct (Hadded x Hx) as [[]|H]; exact H.
Qed.

(** C4, amended. When the storage root exists and can be listed (the stat
    of every entry succeeds, giving the regular, non-hidden [files]) and
    the index holds at most 10000 documents, the run finds and deletes
    exactly the indexed documents without a file: its delete requests are
    those of the orphans, every other request is an index request, the
    documents with a file stay in place in front of the newly indexed
    files, and an indexed document is still indexed afterwards exactly
    when it has a file.  A delete never throws, and leaves the index as it
    is when the document is already gone. *)
Theorem sync_deletes_exactly_orphans (env : environment) (w : world)
        (entries : list dirent) (files : list string) :
  uploads w = Some entries ->
  filesInDirectory entries = listed files ->
  (Z.of_nat (List.length (docs (es w))) <= size getAllDocuments_body)%Z ->
  exists w' newFiles s added index_calls,
    syncFilesWithElasticsearch env w
    = (w', synced (filter (fun h => negb (includes files (_id h))) (docs (es w)))
                  newFiles s)
    /\ orphansRemoved s
       = List.length (filter (fun h => negb (includes files (_id h))) (docs (es w)))
    /\ es_calls (es w')
       = (es_calls (es w)
          ++ map call_delete
               (ids (filter (fun h => negb (includes files (_id h))) (docs (es w))))
          ++ index_calls)%list
    /\ forallb is_index index_calls = true
    /\ docs (es w')
       = (filter (fun h => includes files (_id h)) (docs (es w)) ++ added)%list
    /\ (forall x, In x (ids added) -> In x newFiles)
    /\ (forall h, In h (docs (es w)) -> (In h (docs (es w')) <-> In (_id h) files))
    /\ files = regular_names entries
    /\ (forall w0 id,
          snd (deleteDocument w0 id) = returned tt
          /\ (~ In id (ids (docs w0)) ->
              es_index (fst (deleteDocument w0 id)) = es_index w0)).
Proof.
  intros Hu Hl Hcap.
  destruct (sync_run env w entries files Hu Hl Hcap)
    as (s & added & cs & E & Hn & Hcalls & Hcs & Hdocs & Hadded).
  rewrite (listed_regular_names entries files Hl).
  change (filter (fun h => negb (includes (regular_names entries) (_id h))) (docs (es w)))
    with (Sync.orphans entries (docs (es w))).
  eexists _, _, s, added, cs. split; [exact E|]. cbn [es].
  split; [exact Hn|]. split; [exact Hcalls|]. split; [exact Hcs|].
  split; [exact Hdocs|]. split; [exact Hadded|]. split; [|split; [reflexivity|]].
  - intros h Hh. rewrite Hdocs, in_app_iff. split.
    + intros [Hs|Ha].
      * apply filter_In in Hs. now apply includes_In.
      * apply in_ids in Ha. apply Hadded, new_files_spec in Ha. tauto.
    + intros Hf. left. apply filter_In. split; [exact Hh | now apply includes_In].
  - intros w0 id. split; [apply deleteDocument_returns|].
    intros Hn'. rewrite deleteDocument_world. now rewrite (client_delete_absent w0 id Hn').
Qed.

Lemma sync_deletes_exactly_orphans_witness :
  uploads small_world = Some [regular_file "a.pdf"; regular_file "b.docx";
                              regular_file "notes.txt"]
  /\ filesInDirectory [regular_file "a.pdf"; regular_file "b.docx"; regular_file "notes.txt"]
     = listed ["a.pdf"; "b.docx"; "notes.txt"]
  /\ (Z.of_nat (List.length (docs (es small_world))) <= size getAllDocuments_body)%Z
  /\ exists w' newFiles s,
       syncFilesWithElasticsearch quiet small_world
       = (w', synced [stored "gone.pdf"] newFiles s).
Proof.
  split; [reflexivity|]. split; [reflexivity|]. split; [vm_compute; discriminate|].
  destruct (sync_deletes_exactly_orphans quiet small_world _ _ eq_refl eq_refl)
    as (w' & newFiles & s & _ & _ & E & _).
  - vm_compute. discriminate.
  - exists w', newFiles, s. exact E.
Defined.

(** C5, as stated, fails: without a storage root the first run creates the
    directory and leaves the index alone, and the second run, with no
    change to the storage in between, deletes the indexed document. *)
Lemma second_sync_deletes_after_mkdir :
  let w1 := fst (syncFilesWithElasticsearch quiet rootless_world) in
  let w2 := fst (syncFilesWithElasticsearch quiet w1) in
  docs (es w1) = [stored "a.pdf"]
  /\ es_calls (es w1) = []
  /\ docs (es w2) = []
  /\ es_calls (es w2) = [call_delete "a.pdf"]
  /\ snd (syncFilesWithElasticsearch quiet w1)
     = synced [stored "a.pdf"] []
              {| orphansRemoved := 1; indexedCount := 0; skippedCount := 0 |}.
Proof.
  repeat split.
Qed.

(** After a run in an existing storage root that can be listed, with the
    whole index listed, every indexed id is the name of a file, and a
    supported file that is not indexed is one whose indexing the run
    tried and the service refused. *)
Lemma after_sync (env : environment) (w : world) (entries : list dirent)
      (files : list string) :
  uploads w = Some entries ->
  filesInDirectory entries = listed files ->
  (Z.of_nat (List.length (docs (es w))) <= size getAllDocuments_body)%Z ->
  let w1 := fst (syncFilesWithElasticsearch env w) in
  uploads w1 = Some entries
  /\ (forall x, In x (ids (docs (es w1))) -> In x (regular_names entries))
  /\ (forall f, In f (new_files entries (docs (es w1))) <->
        In f (new_files entries (docs (es w))) /\ refused env entries f = true).
Proof.
  intros Hu Hl Hcap.
  destruct (sync_run env w entries files Hu Hl Hcap)
    as (s & added & cs & E & _ & _ & _ & Hdocs & Hadded).
  cbv zeta. rewrite E. cbn [fst uploads es].
  split; [reflexivity|]. split; [|intros f; split].
  - intros x Hx. rewrite Hdocs in Hx. unfold ids in Hx.
    rewrite map_app, in_app_iff in Hx. destruct Hx as [Hx|Hx].
    + apply in_map_iff in Hx. destruct Hx as (h & <- & Hh).
      apply filter_In in Hh. now apply includes_In.
    + apply Hadded in Hx. now apply new_files_spec in Hx.
  - intros Hf. apply new_files_spec in Hf. destruct Hf as (Hfile & Hnot & Hsup).
    assert (Hnew : In f (new_files entries (docs (es w)))).
    { apply new_files_spec. split; [exact Hfile|]. split; [|exact Hsup].
      intros Hin. apply Hnot. rewrite Hdocs. unfold ids in *.
      rewrite map_app, in_app_iff. left.
      apply in_map_iff in Hin. destruct Hin as (h & He & Hh).
      apply in_map_iff. exists h. split; [exact He|].
      apply filter_In. split; [exact Hh|]. rewrite He. now apply includes_In. }
    split; [exact Hnew|].
    destruct (turn_cases env entries f) as [H|m H1 H2|H|m st H1 H2 H].
    + unfold isSupportedFileType in Hsup. rewrite H in Hsup. discriminate.
    + exfalso. apply (statSync_finds entries f (listed_stats entries files Hl)); [|exact H2].
      now apply regular_names_names.
    + exact H.
    + exfalso. apply Hnot.
      now apply (loop_indexes env entries _ _ _ _ f m st).
  - intros [Hnew Hr]. apply new_files_spec in Hnew.
    destruct Hnew as (Hfile & Hnot & Hsup).
    apply new_files_spec. split; [exact Hfile|]. split; [|exact Hsup].
    intros Hin. apply loop_ids in Hin. destruct Hin as [Hin|[_ Hr']].
    + apply Hnot. unfold Sync.orphans in Hin. rewrite delete_orphans_docs in Hin.
      unfold ids in *. apply in_map_iff in Hin. destruct Hin as (h & He & Hh).
      apply filter_In in Hh. apply in_map_iff. exists h. tauto.
    + rewrite Hr in Hr'. discriminate.
Qed.

(** C5, amended. When the storage root exists and can be listed, and the
    index holds at most 10000 documents before and after the first run, a
    second run with no change to the storage in between, whatever the
    index service answers then, finds no orphan and sends no delete
    request; its only requests are index requests, one for each file
    whose indexing failed in the first run.  When no indexing failed in
    the first run, the second run sends nothing, indexes nothing and
    leaves the index service as it is. *)
Theorem second_sync_changes_nothing (env env2 : environment) (w : world)
        (entries : list dirent) (files : list string) :
  uploads w = Some entries ->
  filesInDirectory entries = listed files ->
  (Z.of_nat (List.length (docs (es w))) <= size getAllDocuments_body)%Z ->
  let w1 := fst (syncFilesWithElasticsearch env w) in
  (Z.of_nat (List.length (docs (es w1))) <= size getAllDocuments_body)%Z ->
  exists retried s2,
    snd (syncFilesWithElasticsearch env2 w1) = synced [] retried s2
    /\ orphansRemoved s2 = 0%nat
    /\ es_calls (es (fst (syncFilesWithElasticsearch env2 w1)))
       = (es_calls (es w1) ++ map call_index retried)%list
    /\ (forall f, In f retried <->
                  In f (new_files entries (docs (es w))) /\ refused env entries f = true)
    /\ ((forall f, In f (new_files entries (docs (es w))) -> refused env entries f = false) ->
        syncFilesWithElasticsearch env2 w1
        = (w1, synced [] [] {| orphansRemoved := 0; indexedCount := 0;
                               skippedCount := 0 |})).
Proof.
  intros Hu Hl Hcap w1 Hcap1.
  destruct (after_sync env w entries files Hu Hl Hcap) as (Hu1 & Hids & Hrefused).
  fold w1 in Hu1, Hids, Hrefused.
  assert (Horph : Sync.orphans entries (docs (es w1)) = []).
  { apply filter_none. intros h Hh. apply negb_false_iff, includes_In.
    apply Hids. now apply in_ids. }
  assert (Hall : forall f, In f (new_files entries (docs (es w1))) ->
                           getMimeType f <> None /\ statSync entries f <> None).
  { intros f Hf. apply new_files_spec in Hf. destruct Hf as (Hfile & _ & Hsup). split.
    - unfold isSupportedFileType in Hsup. destruct (getMimeType f); discriminate.
    - apply (statSync_finds entries f (listed_stats entries files Hl)).
      now apply regular_names_names. }
  rewrite (sync_with_directory env2 w1 entries files Hu1 Hl), (listing_all (es w1) Hcap1).
  cbv zeta. rewrite Horph. cbn [delete_orphans List.length fst snd es].
  exists (new_files entries (docs (es w1))). eexists. split; [reflexivity|].
  cbn [orphansRemoved]. split; [reflexivity|].
  split; [now apply loop_calls_all|]. split; [exact Hrefused|].
  - intros Hnone.
    assert (Hnil : new_files entries (docs (es w1)) = []).
    { destruct (new_files entries (docs (es w1))) as [|f l] eqn:En; [reflexivity|].
      exfalso. destruct (proj1 (Hrefused f) (or_introl eq_refl)) as [Hnew Hr].
      rewrite (Hnone f Hnew) in Hr. discriminate. }
    rewrite Hnil. unfold loop_world, loop_indexed, loop_skipped. cbn.
    destruct w1 as [u1 e1]. cbn in *. now rewrite Hu1.
Qed.

Lemma second_sync_changes_nothing_witness :
  uploads small_world = Some [regular_file "a.pdf"; regular_file "b.docx";
                              regular_file "notes.txt"]
  /\ filesInDirectory [regular_file "a.pdf"; regular_file "b.docx"; regular_file "notes.txt"]
     = listed ["a.pdf"; "b.docx"; "notes.txt"]
  /\ (Z.of_nat (List.length (docs (es small_world))) <= size getAllDocuments_body)%Z
  /\ (Z.of_nat (List.length (docs (es (fst (syncFilesWithElasticsearch quiet small_world)))))
      <= size getAllDocuments_body)%Z
  /\ exists retried s2,
       snd (syncFilesWithElasticsearch quiet
              (fst (syncFilesWithElasticsearch quiet small_world)))
       = synced [] retried s2.
Proof.
  split; [reflexivity|]. split; [reflexivity|]. split; [vm_compute; discriminate|].
  split; [vm_compute; discriminate|].
  destruct (second_sync_changes_nothing quiet quiet small_world _ _ eq_refl eq_refl)
    as (retried & s2 & E & _).
  - vm_compute. discriminate.
  - vm_compute. discriminate.
  - exists retried, s2. exact E.
Defined.

End SyncProperties.

(* ================================================================== *)
(** ** Properties of the highlight classifier *)
(* ================================================================== *)

Module HighlightProperties.

Import JS Highlight.

(** *** Literal matching *)

Lemma ci_eq_refl (a : ascii) : ci_eq a a = true.
Proof. apply Ascii.eqb_refl. Qed.

Lemma matches_ci_prefix (p r : string) : matches_ci p (p ++ r) = true.
Proof.
  induction p as [|a p IH]; simpl; [reflexivity|].
  now rewrite ci_eq_refl, IH.
Qed.

Lemma drop_prefix (p r : string) : drop (String.length p) (p ++ r) = r.
Proof. induction p as [|a p IH]; simpl; [now destruct r | exact IH]. Qed.

Lemma length_app (s t : string) :
  String.length (s ++ t) = String.length s + String.length t.
Proof. induction s as [|a s IH]; simpl; [reflexivity | now rewrite IH]. Qed.

Lemma app_assoc_str (s t u : string) : (s ++ t) ++ u = s ++ (t ++ u).
Proof. induction s as [|a s IH]; simpl; [reflexivity | now rewrite IH]. Qed.

Lemma app_empty_r (s : string) : s ++ "" = s.
Proof. induction s as [|a s IH]; simpl; [reflexivity | now rewrite IH]. Qed.

(** A literal without [<] that matches a text followed by [<] matches
    within the text. *)
Lemma matches_ci_before_lt (p r rest : string) :
  free_of "<" p = true ->
  matches_ci p (r ++ String "<" rest) = true ->
  matches_ci p r = true.
Proof.
  revert r. induction p as [|a p IH]; intros r Hfree Hm; [reflexivity|].
  simpl in Hfree. apply andb_true_iff in Hfree. destruct Hfree as [Ha Hp].
  destruct r as [|b r]; simpl in Hm |- *.
  - apply andb_true_iff in Hm. destruct Hm as [Hm _].
    rewrite Hm in Ha. discriminate.
  - apply andb_true_iff in Hm. destruct Hm as [Hb Hm].
    rewrite Hb. simpl. now apply IH.
Qed.

(** The same for a literal whose only [<] is its first code unit, when
    the text is not empty. *)
Lemma matches_ci_no_straddle (a : ascii) (p : string) (b : ascii) (r rest : string) :
  free_of "<" p = true ->
  matches_ci (String a p) (String b r ++ String "<" rest) = true ->
  matches_ci (String a p) (String b r) = true.
Proof.
  intros Hfree Hm. simpl in Hm |- *.
  apply andb_true_iff in Hm. destruct Hm as [Hb Hm]. rewrite Hb. simpl.
  now apply (matches_ci_before_lt p r rest).
Qed.

Lemma occurs_ci_cons (p : string) (c : ascii) (s : string) :
  occurs_ci p (String c s) = false ->
  matches_ci p (String c s) = false /\ occurs_ci p s = false.
Proof.
  simpl. intros H. now apply orb_false_iff in H.
Qed.

(** *** One span *)

Lemma capture_inner (inner rest : string) :
  occurs_ci close_pattern inner = false ->
  has_line_terminator inner = false ->
  capture (inner ++ close_pattern ++ rest) = Some (inner, rest).
Proof.
  induction inner as [|c inner IH]; intros Hocc Hlt.
  - reflexivity.
  - apply occurs_ci_cons in Hocc. destruct Hocc as [Hm Hocc].
    simpl in Hlt. apply orb_false_iff in Hlt. destruct Hlt as [Hc Hlt].
    change (String c inner ++ close_pattern ++ rest)
      with (String c (inner ++ close_pattern ++ rest)).
    cbn [capture].
    destruct (matches_ci close_pattern (String c (inner ++ close_pattern ++ rest))) eqn:Hs.
    + exfalso.
      change (String c (inner ++ close_pattern ++ rest))
        with (String c inner ++ String "<" ("/span>" ++ rest)) in Hs.
      apply (matches_ci_no_straddle "<" "/span>") in Hs; [|reflexivity].
      unfold close_pattern in Hm. rewrite Hs in Hm. discriminate.
    + rewrite Hc, (IH Hocc Hlt). reflexivity.
Qed.

Lemma match_span_wrap (inner rest : string) :
  occurs_ci close_pattern inner = false ->
  has_line_terminator inner = false ->
  match_span (wrap inner ++ rest) = Some (inner, rest).
Proof.
  intros Hocc Hlt. unfold match_span, wrap.
  rewrite !app_assoc_str, matches_ci_prefix, drop_prefix.
  now apply capture_inner.
Qed.

Lemma replace_spans_skip (f : string -> string) (pre s : string) :
  replace_spans f (String.length pre) (pre ++ s) = replace_spans f 0 s.
Proof.
  induction pre as [|c pre IH]; simpl; [now destruct s | exact IH].
Qed.

Lemma replace_spans_wrap (f : string -> string) (inner rest : string) :
  occurs_ci close_pattern inner = false ->
  has_line_terminator inner = false ->
  replace_spans f 0 (wrap inner ++ rest) = f inner ++ replace_spans f 0 rest.
Proof.
  intros Hocc Hlt.
  pose proof (match_span_wrap inner rest Hocc Hlt) as Hm.
  remember (wrap inner ++ rest) as html eqn:Eh.
  destruct html as [|c html']; [discriminate|].
  cbn [replace_spans]. rewrite Hm. f_equal.
  unfold wrap, open_pattern in Eh. simpl in Eh. injection Eh as _ Eh'.
  rewrite Eh'.
  rewrite <- (replace_spans_skip f
                ("span class=" ++ q ++ "highlight" ++ q ++ ">" ++ inner ++ close_pattern) rest).
  f_equal. rewrite !length_app. simpl. lia.
Qed.

(** *** Text between spans *)

Lemma replace_spans_text (f : string -> string) (text next : string) :
  occurs_ci open_pattern text = false ->
  next = "" \/ (exists rest, next = String "<" rest) ->
  replace_spans f 0 (text ++ next) = text ++ replace_spans f 0 next.
Proof.
  intros Hocc Hnext. induction text as [|c text IH]; [reflexivity|].
  apply occurs_ci_cons in Hocc. destruct Hocc as [Hm Hocc].
  change (String c text ++ next) with (String c (text ++ next)).
  cbn [replace_spans].
  assert (Hno : match_span (String c (text ++ next)) = None).
  { unfold match_span.
    destruct (matches_ci open_pattern (String c (text ++ next))) eqn:Hs; [|reflexivity].
    exfalso. destruct Hnext as [->|[rest ->]].
    - rewrite app_empty_r in Hs. rewrite Hs in Hm. discriminate.
    - change (String c (text ++ String "<" rest))
        with (String c text ++ String "<" rest) in Hs.
      unfold open_pattern in Hs, Hm. simpl append in Hs, Hm.
      apply matches_ci_no_straddle in Hs; [|reflexivity].
      rewrite Hs in Hm. discriminate. }
  rewrite Hno. simpl. f_equal. now apply IH.
Qed.

Lemma replace_spans_tail (f : string -> string) (text : string) :
  occurs_ci open_pattern text = false ->
  replace_spans f 0 text = text.
Proof.
  intros Hocc.
  rewrite <- (app_empty_r text) at 1.
  rewrite (replace_spans_text f text "" Hocc (or_introl eq_refl)).
  simpl. apply app_empty_r.
Qed.

(** *** A whole fragment *)

Lemma replace_spans_render (f : string -> string) (l : list (string * string)) (tl : string) :
  forallb (fun p => negb (occurs_ci open_pattern (fst p))
                    && negb (occurs_ci close_pattern (snd p))
                    && negb (has_line_terminator (snd p))) l = true ->
  occurs_ci open_pattern tl = false ->
  replace_spans f 0 (render_spans wrap l tl) = render_spans f l tl.
Proof.
  intros Hl Htl. induction l as [|[before inner] l IH]; cbn [render_spans].
  - now apply replace_spans_tail.
  - simpl in Hl. apply andb_true_iff in Hl. destruct Hl as [Hp Hl].
    apply andb_true_iff in Hp. destruct Hp as [Hp Hlt].
    apply andb_true_iff in Hp. destruct Hp as [Hop Hcl].
    apply negb_true_iff in Hop, Hcl, Hlt.
    rewrite replace_spans_text; [|exact Hop|].
    + f_equal. rewrite replace_spans_wrap by assumption. f_equal. now apply IH.
    + right. unfold wrap, open_pattern. simpl. eexists. reflexivity.
Qed.

Lemma processHighlights_replace (searchTerm html : string) :
  trim searchTerm <> "" ->
  processHighlights searchTerm html
  = replace_spans (relabel (toLowerCase (trim searchTerm))) 0 html.
Proof.
  intros Hne. unfold processHighlights.
  replace (String.eqb searchTerm "") with false.
  2:{ symmetry. apply String.eqb_neq. intros ->. now apply Hne. }
  replace (String.eqb (trim searchTerm) "") with false
    by (symmetry; now apply String.eqb_neq).
  simpl. destruct (String.eqb_spec html "") as [->|_]; reflexivity.
Qed.

Lemma isExact_spec (term content : string) :
  isExact term content = true
  <-> In (toLowerCase content) (query_terms term) \/ term = toLowerCase content.
Proof.
  unfold isExact. rewrite orb_true_iff, existsb_exists, String.eqb_eq. split.
  - intros [(t & Ht & He)|H]; [left | now right].
    apply String.eqb_eq in He. now subst.
  - intros [H|H]; [left | now right].
    exists (toLowerCase content). split; [exact H | apply String.eqb_refl].
Qed.

(** C3, as stated, fails.  Nested markup is not stripped: for the query
    [report] the span around [<b>report</b>] is labelled fuzzy, although
    its text without the markup is the query term.  And a query of white
    space only, which is not empty, leaves the spans as they are. *)
Lemma nested_markup_is_not_stripped :
  spec_isExact "report" "<b>report</b>" = true
  /\ processHighlights "report" (wrap "<b>report</b>")
     = fuzzy_tag ++ "<b>report</b>" ++ "</span>"
  /\ spec_isExact " " "report" = false
  /\ processHighlights " " (wrap "report") = exact_tag ++ "report" ++ "</span>".
Proof.
  repeat split.
Qed.

(** C3, amended. For a query that is not empty or white space only, and a
    fragment whose spans are delimited as listed, every span is relabelled
    from its own inner text, which is written back unchanged: exact when
    the inner text, lowercased and with its markup kept, is one of the
    white-space separated terms of the trimmed lowercased query or that
    whole query, fuzzy otherwise.  For the query [report], [report] is
    exact, [reports] and [repot] are fuzzy.  A query that is empty or
    white space only leaves every text as it is. *)
Theorem spans_classified_independently (searchTerm : string) (fr : fragment) :
  trim searchTerm <> "" ->
  well_delimited fr = true ->
  let term := toLowerCase (trim searchTerm) in
  processHighlights searchTerm (render fr) = classified term fr
  /\ (forall inner,
        relabel term inner
        = (if isExact term inner then exact_tag else fuzzy_tag) ++ inner ++ "</span>")
  /\ (forall inner,
        isExact term inner = true
        <-> In (toLowerCase inner) (query_terms term) \/ term = toLowerCase inner)
  /\ processHighlights "report" (wrap "report") = exact_tag ++ "report" ++ "</span>"
  /\ processHighlights "report" (wrap "reports") = fuzzy_tag ++ "reports" ++ "</span>"
  /\ processHighlights "report" (wrap "repot") = fuzzy_tag ++ "repot" ++ "</span>"
  /\ (forall blank html, trim blank = "" -> processHighlights blank html = html).
Proof.
  intros Hne Hwd term. split; [|split; [|split]].
  - rewrite (processHighlights_replace searchTerm (render fr) Hne).
    unfold well_delimited in Hwd. apply andb_true_iff in Hwd. destruct Hwd as [Hl Htl].
    apply negb_true_iff in Htl.
    unfold render, classified. now apply replace_spans_render.
  - intros inner. unfold relabel. now destruct (isExact term inner).
  - intros inner. apply isExact_spec.
  - split; [reflexivity|]. split; [reflexivity|]. split; [reflexivity|].
    intros blank html Hb. unfold processHighlights. rewrite Hb.
    now rewrite String.eqb_refl, orb_true_r.
Qed.

Lemma spans_classified_independently_witness :
  trim " Quarterly Report " <> ""
  /\ well_delimited {| spans := [("The ", "Quarterly"); (" ", "<b>report</b>"); (" and ", "REPORT")];
                       tail := "." |} = true
  /\ processHighlights " Quarterly Report "
       ("The " ++ wrap "Quarterly" ++ " " ++ wrap "<b>report</b>" ++ " and " ++ wrap "REPORT" ++ ".")
     = "The " ++ exact_tag ++ "Quarterly</span> " ++ fuzzy_tag ++ "<b>report</b></span> and "
       ++ exact_tag ++ "REPORT</span>.".
Proof.
  split; [discriminate|]. split; [reflexivity|].
  destruct (spans_classified_independently " Quarterly Report "
              {| spans := [("The ", "Quarterly"); (" ", "<b>report</b>"); (" and ", "REPORT")];
                 tail := "." |}) as [E _].
  - discriminate.
  - reflexivity.
  - exact E.
Defined.

End HighlightProperties.

(* ================================================================== *)
(** ** Further properties of the index operations *)
(* ================================================================== *)

Module IndexServiceProperties.

Import JS Elasticsearch Sync SyncProperties.

Lemma docs_deleteDocument (w : es_world) (id : string) :
  docs (fst (deleteDocument w id))
  = filter (fun h => negb (String.eqb (_id h) id)) (docs w).
Proof.
  rewrite deleteDocument_world.
  exact (docs_index w _ eq_refl _ (client_delete_index w id)).
Qed.

Lemma deleteDocument_removes_id (w : es_world) (id : string) :
  ~ In id (ids (docs (fst (deleteDocument w id)))).
Proof.
  rewrite docs_deleteDocument. intros Hin. unfold ids in Hin. apply in_map_iff in Hin.
  destruct Hin as (h & He & Hh). apply filter_In in Hh. destruct Hh as [_ Hh].
  apply negb_true_iff, String.eqb_neq in Hh. contradiction.
Qed.

(** X1. [deleteDocument] never throws, whatever the client answers: a
    success, the status 404 and every other error status all end in a
    normal return, with the service as the client left it.  When the
    service carries the request out, afterwards no document of the index
    has the given id, and every other document is indexed exactly when it
    was before. *)
Theorem deleteDocument_removes_only_that_id (w : es_world) (id : string) :
  (forall (w' : es_world) (answer : response unit),
      deleteDocument_catch (w', answer) = (w', returned tt))
  /\ deleteDocument w id = (fst (client_delete w id), returned tt)
  /\ ~ In id (ids (docs (fst (deleteDocument w id))))
  /\ forall h, _id h <> id ->
               (In h (docs (fst (deleteDocument w id))) <-> In h (docs w)).
Proof.
  split.
  { intros w' [u|status]; cbn [deleteDocument_catch]; [reflexivity|].
    now destruct (negb (status =? 404)%Z). }
  split.
  { apply injective_projections; cbn [fst snd];
      [apply deleteDocument_world | apply deleteDocument_returns]. }
  split; [apply deleteDocument_removes_id|].
  rewrite docs_deleteDocument.
  intros h Hne. rewrite filter_In. split; [tauto|].
  intros Hh. split; [exact Hh|]. now apply negb_true_iff, String.eqb_neq.
Qed.

(** X2. Deleting the same id a second time leaves the documents of the
    index as the first delete left them, and still returns normally. *)
Theorem deleteDocument_twice (w : es_world) (id : string) :
  let w1 := fst (deleteDocument w id) in
  docs (fst (deleteDocument w1 id)) = docs w1
  /\ es_index (fst (deleteDocument w1 id)) = es_index w1
  /\ deleteDocument w1 id
     = ({| es_index := es_index w1; es_calls := es_calls w1 ++ [call_delete id] |},
        returned tt).
Proof.
  intros w1.
  assert (Hn : ~ In id (ids (docs w1)))
    by apply (deleteDocument_removes_id w id).
  assert (E : deleteDocument w1 id
     = ({| es_index := es_index w1; es_calls := es_calls w1 ++ [call_delete id] |},
        returned tt)).
  { unfold deleteDocument. now rewrite (client_delete_absent w1 id Hn). }
  rewrite E. repeat split.
Qed.

Lemma get_source_upsert_same (h : hit) (ds : list hit) :
  get_source (upsert h ds) (_id h) = Some (_source h).
Proof.
  unfold get_source. induction ds as [|d ds IH]; simpl.
  - now rewrite String.eqb_refl.
  - destruct (String.eqb (_id d) (_id h)) eqn:He; simpl.
    + now rewrite String.eqb_refl.
    + rewrite He. exact IH.
Qed.

Lemma get_source_upsert_other (h : hit) (ds : list hit) (id : string) :
  id <> _id h -> get_source (upsert h ds) id = get_source ds id.
Proof.
  intros Hne. unfold get_source. induction ds as [|d ds IH]; simpl.
  - destruct (String.eqb_spec (_id h) id) as [E|_]; [congruence | reflexivity].
  - destruct (String.eqb_spec (_id d) (_id h)) as [E|E]; simpl.
    + destruct (String.eqb_spec (_id h) id) as [E'|_]; [congruence|].
      destruct (String.eqb_spec (_id d) id) as [E'|_]; [congruence | reflexivity].
    + destruct (String.eqb (_id d) id); [reflexivity | exact IH].
Qed.

Lemma NoDup_upsert (h : hit) (ds : list hit) :
  NoDup (ids ds) -> NoDup (ids (upsert h ds)).
Proof.
  induction ds as [|d ds IH]; intros Hnd; simpl.
  - constructor; [tauto | constructor].
  - inversion Hnd as [|x l Hx Hl]; subst.
    destruct (String.eqb_spec (_id d) (_id h)) as [E|E]; simpl.
    + rewrite <- E. now constructor.
    + constructor; [|now apply IH].
      intros Hin. apply upsert_ids in Hin. destruct Hin as [Hin|Hin]; [congruence | contradiction].
Qed.

Lemma length_upsert (h : hit) (ds : list hit) :
  List.length (upsert h ds)
  = if includes (ids ds) (_id h) then List.length ds else S (List.length ds).
Proof.
  induction ds as [|d ds IH]; simpl; [reflexivity|].
  unfold includes in *. simpl.
  rewrite (String.eqb_sym (_id h) (_id d)).
  destruct (String.eqb (_id d) (_id h)); simpl; [reflexivity|].
  rewrite IH. now destruct (existsb (String.eqb (_id h)) (ids ds)).
Qed.

(** X3. A document the service accepts is stored under its file name:
    looking that id up gives the body built from the document (the date
    defaulting to the clock), every other id gives what it gave before,
    the index holds one document more exactly when the id is new, and
    ids stay unique.  [indexDocument] returns normally. *)
Theorem indexDocument_stores (env : environment) (w : es_world) (doc : document) :
  rejects env (source_of env doc) = false ->
  let w' := fst (indexDocument env w doc) in
  snd (indexDocument env w doc) = returned tt
  /\ get_source (docs w') (filename doc) = Some (source_of env doc)
  /\ (forall id, id <> filename doc -> get_source (docs w') id = get_source (docs w) id)
  /\ List.length (docs w')
     = (if includes (ids (docs w)) (filename doc)
        then List.length (docs w) else S (List.length (docs w)))
  /\ (NoDup (ids (docs w)) -> NoDup (ids (docs w'))).
Proof.
  intros Hacc w'. subst w'. unfold indexDocument, client_index. rewrite Hacc.
  cbn [fst snd]. unfold docs at 1 3 5 7. cbn [es_index].
  set (h := {| _id := filename doc; _source := source_of env doc |}).
  split; [reflexivity|].
  split; [exact (get_source_upsert_same h (docs w))|].
  split; [intros id Hne; exact (get_source_upsert_other h (docs w) id Hne)|].
  split; [exact (length_upsert h (docs w))|].
  apply NoDup_upsert.
Qed.

Lemma indexDocument_stores_witness :
  rejects quiet (source_of quiet {| filename := "a.pdf"; originalname := "A.pdf";
                                    content := "text"; doc_size := 3; uploadDate := None |})
  = false
  /\ get_source
       (docs (fst (indexDocument quiet idle
                     {| filename := "a.pdf"; originalname := "A.pdf";
                        content := "text"; doc_size := 3; uploadDate := None |})))
       "a.pdf"
     = Some {| src_filename := "a.pdf"; src_originalname := "A.pdf";
               src_content := "text"; src_size := 3; src_uploadDate := 0 |}.
Proof.
  split; [reflexivity|].
  destruct (indexDocument_stores quiet idle
              {| filename := "a.pdf"; originalname := "A.pdf";
                 content := "text"; doc_size := 3; uploadDate := None |} eq_refl)
    as (_ & E & _).
  exact E.
Defined.

(** A document the service refuses makes [indexDocument] throw the
    status 400 and leaves the index as it was. *)
Theorem indexDocument_refused (env : environment) (w : es_world) (doc : document) :
  rejects env (source_of env doc) = true ->
  snd (indexDocument env w doc) = thrown 400
  /\ es_index (fst (indexDocument env w doc)) = es_index w.
Proof.
  intros Hrej. unfold indexDocument, client_index. rewrite Hrej. split; reflexivity.
Qed.

Lemma filter_upsert (h : hit) (ds : list hit) :
  filter (fun d => negb (String.eqb (_id d) (_id h))) (upsert h ds)
  = filter (fun d => negb (String.eqb (_id d) (_id h))) ds.
Proof.
  induction ds as [|d ds IH]; simpl.
  - now rewrite String.eqb_refl.
  - destruct (String.eqb (_id d) (_id h)) eqn:He; simpl.
    + now rewrite String.eqb_refl.
    + rewrite He. simpl. now rewrite IH.
Qed.

(** X4. Indexing a document and then deleting its id leaves the documents
    a delete alone would have left, whether the service accepted the
    document or not. *)
Theorem index_then_delete (env : environment) (w : es_world) (doc : document) :
  docs (fst (deleteDocument (fst (indexDocument env w doc)) (filename doc)))
  = docs (fst (deleteDocument w (filename doc))).
Proof.
  rewrite !docs_deleteDocument. unfold indexDocument, client_index.
  destruct (rejects env (source_of env doc)); cbn [fst]; [reflexivity|].
  unfold docs at 1. cbn [es_index].
  exact (filter_upsert {| _id := filename doc; _source := source_of env doc |} (docs w)).
Qed.

(** X5. [getAllDocuments] returns the hits of a successful answer, turns
    the status 404 (no index yet) into an empty list, and throws every
    other error status on to its caller.  Against a service that answers,
    it returns the first documents of the index in the service's order,
    at most 10000 of them, all of them when the index holds no more, and
    none when there is no index. *)
Theorem getAllDocuments_bounded (w : es_world) :
  (forall hits, getAllDocuments_catch (ok hits) = returned hits)
  /\ getAllDocuments_catch (error 404%Z) = returned []
  /\ (forall status, status <> 404%Z ->
        getAllDocuments_catch (error status) = thrown status)
  /\ exists hits rest,
       getAllDocuments w = returned hits
       /\ docs w = (hits ++ rest)%list
       /\ (Z.of_nat (List.length hits) <= 10000)%Z
       /\ ((Z.of_nat (List.length (docs w)) <= 10000)%Z -> hits = docs w)
       /\ (es_index w = None -> hits = []).
Proof.
  split; [reflexivity|]. split; [reflexivity|]. split.
  { intros status Hs. cbn [getAllDocuments_catch].
    destruct (Z.eqb_spec status 404) as [E|_]; [contradiction | reflexivity]. }
  exists (listing w), (skipn (Z.to_nat 10000) (docs w)).
  split; [apply getAllDocuments_listing|].
  split; [symmetry; apply firstn_skipn|].
  split.
  - unfold listing. change (size getAllDocuments_body) with 10000%Z.
    pose proof (firstn_le_length (Z.to_nat 10000) (docs w)). lia.
  - split; [intros H; now apply listing_all|].
    intros Hn. unfold listing, docs. rewrite Hn. reflexivity.
Qed.

End IndexServiceProperties.

(* ================================================================== *)
(** ** Further properties of the reconciliation *)
(* ================================================================== *)

Module ReconciliationProperties.

Import JS Elasticsearch Sync SyncProperties IndexServiceProperties.

(** *** New files *)

Lemma in_upsert_same (h : hit) (ds : list hit) : In h (upsert h ds).
Proof.
  induction ds as [|d ds IH]; simpl; [now left|].
  destruct (String.eqb (_id d) (_id h)); [now left | now right].
Qed.

Lemma in_upsert_other (h h' : hit) (ds : list hit) :
  _id h' <> _id h -> In h ds -> In h (upsert h' ds).
Proof.
  intros Hne. induction ds as [|d ds IH]; simpl; [tauto|].
  intros [->|Hin].
  - destruct (String.eqb_spec (_id h) (_id h')) as [E|_]; [congruence | now left].
  - destruct (String.eqb (_id d) (_id h')); right; [exact Hin | now apply IH].
Qed.

Lemma accepted_hit (env : environment) (f m : string) (st : Stats) :
  {| _id := f; _source := source_of env (new_document env st f m) |} = file_hit env f m st.
Proof. reflexivity. Qed.

Section OneFile.

Variable env : environment.
Variable entries : list dirent.
Variables (f m : string) (st : Stats).
Hypothesis Hm : getMimeType f = Some m.
Hypothesis Hs : statSync entries f = Some st.

(** Once the document of [f] is stored, the loop keeps it. *)
Lemma loop_keeps_file_hit l : forall w ic sc,
  In (file_hit env f m st) (docs w) ->
  In (file_hit env f m st) (docs (loop_world env entries w l ic sc)).
Proof.
  unfold loop_world.
  induction l as [|g l IH]; intros w ic sc Hin; [exact Hin|].
  destruct (turn_cases env entries g) as [H|m' H1 H2|H|m' st' H1 H2 H].
  - rewrite index_new_files_unsupported by assumption. now apply IH.
  - rewrite (index_new_files_missing _ _ _ _ _ _ _ m') by assumption. now apply IH.
  - rewrite index_new_files_refused by assumption. now apply IH.
  - rewrite (index_new_files_accepted _ _ _ _ _ _ _ m' st') by assumption.
    apply IH. unfold docs at 1. cbn [es_index]. rewrite accepted_hit.
    destruct (String.eqb_spec g f) as [->|Hne].
    + rewrite Hm in H1. rewrite Hs in H2. injection H1 as <-. injection H2 as <-.
      apply in_upsert_same.
    + apply in_upsert_other; [exact Hne | exact Hin].
Qed.

Lemma loop_stores_file_hit l : forall w ic sc,
  In f l -> refused env entries f = false ->
  In (file_hit env f m st) (docs (loop_world env entries w l ic sc)).
Proof.
  induction l as [|g l IH]; intros w ic sc Hin Hr; [destruct Hin|].
  destruct Hin as [->|Hin].
  - unfold loop_world.
    rewrite (index_new_files_accepted _ _ _ _ _ _ _ m st) by assumption.
    apply loop_keeps_file_hit. unfold docs at 1. cbn [es_index].
    rewrite accepted_hit. apply in_upsert_same.
  - unfold loop_world.
    destruct (turn_cases env entries g) as [H|m' H1 H2|H|m' st' H1 H2 H].
    + rewrite index_new_files_unsupported by assumption. now apply IH.
    + rewrite (index_new_files_missing _ _ _ _ _ _ _ m') by assumption. now apply IH.
    + rewrite index_new_files_refused by assumption. now apply IH.
    + rewrite (index_new_files_accepted _ _ _ _ _ _ _ m' st') by assumption. now apply IH.
Qed.

End OneFile.

(** X6. New-file pickup.  When the storage root can be listed, a regular,
    non-hidden file of a supported type that the listing of the index
    does not show and that the service accepts is indexed by the run
    under its own name, with the text of the extractor as content, the
    size and the modification time of the file, and its name as original
    name. *)
Theorem new_file_is_indexed (env : environment) (w : world) (entries : list dirent)
        (files : list string) (f m : string) (st : Stats) :
  uploads w = Some entries ->
  filesInDirectory entries = listed files ->
  In f files ->
  ~ In f (ids (listing (es w))) ->
  getMimeType f = Some m ->
  statSync entries f = Some st ->
  refused env entries f = false ->
  In {| _id := f;
        _source := {| src_filename := f;
                      src_originalname := f;
                      src_content := extractText env f m;
                      src_size := st_size st;
                      src_uploadDate := mtime st |} |}
     (docs (es (fst (syncFilesWithElasticsearch env w)))).
Proof.
  intros Hu Hl Hf Hn Hm Hs Hr.
  rewrite (sync_with_directory env w entries files Hu Hl). cbv zeta. cbn [fst es].
  apply (loop_stores_file_hit env entries f m st Hm Hs); [|exact Hr].
  apply new_files_spec. split; [now rewrite <- (listed_regular_names entries files Hl)|].
  split; [exact Hn|].
  unfold isSupportedFileType. now rewrite Hm.
Qed.

Lemma new_file_is_indexed_witness :
  In (file_hit quiet "b.docx"
        "application/vnd.openxmlformats-officedocument.wordprocessingml.document"
        {| isFile := true; st_size := 1; mtime := 2 |})
     (docs (es (fst (syncFilesWithElasticsearch quiet small_world)))).
Proof.
  apply (new_file_is_indexed quiet small_world
           [regular_file "a.pdf"; regular_file "b.docx"; regular_file "notes.txt"]
           ["a.pdf"; "b.docx"; "notes.txt"]).
  - reflexivity.
  - reflexivity.
  - simpl. tauto.
  - vm_compute. intros [H|[H|[]]]; discriminate.
  - reflexivity.
  - reflexivity.
  - reflexivity.
Defined.

(** *** The requests of a run *)

Lemma regular_names_spec (entries : list dirent) (f : string) :
  In f (regular_names entries)
  <-> exists e st, In e entries /\ name e = f /\ stats e = Some st
                   /\ isFile st = true /\ startsWith "." f = false.
Proof.
  unfold regular_names. rewrite in_map_iff. split.
  - intros (e & He & Hin). apply filter_In in Hin. destruct Hin as [Hin Hc].
    destruct (stats e) as [st|] eqn:Es; [|discriminate].
    apply andb_true_iff in Hc. destruct Hc as [Hfile Hdot].
    apply negb_true_iff in Hdot. exists e, st. rewrite <- He. tauto.
  - intros (e & st & Hin & He & Es & Hfile & Hdot). exists e. split; [exact He|].
    apply filter_In. split; [exact Hin|]. rewrite Es, Hfile, He, Hdot. reflexivity.
Qed.

(** The new files of a storage root that can be listed have a type and
    stats. *)
Lemma new_files_sendable (entries : list dirent) (files : list string) (ds : list hit) :
  filesInDirectory entries = listed files ->
  forall f, In f (new_files entries ds) ->
            getMimeType f <> None /\ statSync entries f <> None.
Proof.
  intros Hl f Hf. apply new_files_spec in Hf. destruct Hf as (Hfile & _ & Hsup). split.
  - unfold isSupportedFileType in Hsup. destruct (getMimeType f); discriminate.
  - apply (statSync_finds entries f (listed_stats entries files Hl)).
    now apply regular_names_names.
Qed.

(** The requests of a run in a storage root that can be listed. *)
Lemma sync_calls_listed (env : environment) (w : world) (entries : list dirent)
      (files : list string) :
  uploads w = Some entries ->
  filesInDirectory entries = listed files ->
  es_calls (es (fst (syncFilesWithElasticsearch env w)))
  = (es_calls (es w)
     ++ map call_delete (ids (Sync.orphans entries (listing (es w))))
     ++ map call_index (new_files entries (listing (es w))))%list.
Proof.
  intros Hu Hl. rewrite (sync_with_directory env w entries files Hu Hl).
  cbv zeta. cbn [fst es].
  rewrite (loop_calls_all env entries _ _ _ _
             (new_files_sendable entries files (listing (es w)) Hl)).
  rewrite delete_orphans_calls. now rewrite <- app_assoc.
Qed.

(** The requests of a run, whether or not the storage root can be
    listed. *)
Lemma sync_calls (env : environment) (w : world) (entries : list dirent) :
  uploads w = Some entries ->
  exists removed sent,
    es_calls (es (fst (syncFilesWithElasticsearch env w)))
    = (es_calls (es w) ++ map call_delete (ids removed) ++ map call_index sent)%list
    /\ incl removed (Sync.orphans entries (listing (es w)))
    /\ incl sent (new_files entries (listing (es w))).
Proof.
  intros Hu. destruct (filesInDirectory entries) as [files|f] eqn:Hl.
  - exists (Sync.orphans entries (listing (es w))), (new_files entries (listing (es w))).
    split; [exact (sync_calls_listed env w entries files Hu Hl)|].
    split; apply incl_refl.
  - rewrite (sync_stat_throws env w entries f Hu Hl). exists [], [].
    cbn [fst map ids]. rewrite !app_nil_r.
    split; [reflexivity|]. split; apply incl_nil_l.
Qed.

(** X7. What a run asks of the index service, whatever the size of the
    index.  When the storage root can be listed: first one delete for
    each listed document without a file, then index requests only, one
    for each regular file of the storage root whose name does not start
    with a dot, whose type is supported and whose name the listing of the
    index did not show, in the order of the directory.  Directories,
    hidden files and files of unsupported type are never sent to the
    index.  When the stat of an entry throws in the listing, the run ends
    with that error and has asked nothing of the index service. *)
Theorem sync_requests (env : environment) (w : world) (entries : list dirent) :
  uploads w = Some entries ->
  (forall files, filesInDirectory entries = listed files ->
     exists sent,
       es_calls (es (fst (syncFilesWithElasticsearch env w)))
       = (es_calls (es w)
          ++ map call_delete
               (ids (filter (fun doc => negb (includes files (_id doc))) (listing (es w))))
          ++ map call_index sent)%list
       /\ sent = filter (fun f => negb (includes (ids (listing (es w))) f)
                                  && isSupportedFileType f) files
       /\ forall f, In f sent ->
            isSupportedFileType f = true
            /\ startsWith "." f = false
            /\ ~ In f (ids (listing (es w)))
            /\ exists e st, In e entries /\ name e = f /\ stats e = Some st
                            /\ isFile st = true)
  /\ (forall f, filesInDirectory entries = stat_throws f ->
        syncFilesWithElasticsearch env w = (w, stat_failed f)).
Proof.
  intros Hu. split.
  - intros files Hl. exists (new_files entries (listing (es w))).
    rewrite (listed_regular_names entries files Hl).
    split; [exact (sync_calls_listed env w entries _ Hu Hl)|].
    split; [reflexivity|].
    intros f Hf. apply new_files_spec in Hf. destruct Hf as (Hfile & Hn & Hsup).
    apply regular_names_spec in Hfile.
    destruct Hfile as (e & st & He & Hname & Hst & Hreg & Hdot).
    repeat split; try assumption. now exists e, st.
  - intros f Hl. exact (sync_stat_throws env w entries f Hu Hl).
Qed.

Lemma sync_requests_witness :
  uploads small_world = Some [regular_file "a.pdf"; regular_file "b.docx";
                              regular_file "notes.txt"]
  /\ es_calls (es (fst (syncFilesWithElasticsearch quiet small_world)))
     = [call_delete "gone.pdf"; call_index "b.docx"]
  /\ syncFilesWithElasticsearch quiet broken_link_world
     = (broken_link_world, stat_failed "link.pdf").
Proof.
  split; [reflexivity|].
  destruct (sync_requests quiet small_world _ eq_refl) as [Hlisted _].
  destruct (Hlisted _ eq_refl) as (sent & E & -> & _).
  destruct (sync_requests quiet broken_link_world _ eq_refl) as [_ Hthrows].
  split; [rewrite E; reflexivity | exact (Hthrows _ eq_refl)].
Defined.

(** *** What a run keeps *)

(** X8. A run never removes the document of a file that is in the storage
    root: an indexed id that names a regular, non-hidden file is still
    indexed afterwards, whatever the size of the index, whatever the
    service refuses, and whether or not the listing of the storage root
    succeeds. *)
Theorem sync_keeps_documents_with_file (env : environment) (w : world)
        (entries : list dirent) (id : string) :
  uploads w = Some entries ->
  In id (ids (docs (es w))) ->
  In id (regular_names entries) ->
  In id (ids (docs (es (fst (syncFilesWithElasticsearch env w))))).
Proof.
  intros Hu Hid Hfile.
  destruct (filesInDirectory entries) as [files|f] eqn:Hl;
    [|now rewrite (sync_stat_throws env w entries f Hu Hl)].
  rewrite (sync_with_directory env w entries files Hu Hl). cbv zeta. cbn [fst es].
  apply loop_keeps_ids. rewrite delete_orphans_keeps.
  unfold ids in *. apply in_map_iff in Hid. destruct Hid as (h & He & Hh).
  apply in_map_iff. exists h. split; [exact He|].
  apply filter_In. split; [exact Hh|].
  apply negb_true_iff, includes_notin. intros Hin.
  apply in_map_iff in Hin. destruct Hin as (o & Ho & Hin).
  unfold Sync.orphans in Hin. apply filter_In in Hin. destruct Hin as [_ Hin].
  apply negb_true_iff, includes_notin in Hin. apply Hin. now rewrite Ho, He.
Qed.

Lemma sync_keeps_documents_with_file_witness :
  In "a.pdf" (ids (docs (es (fst (syncFilesWithElasticsearch quiet small_world)))))
  /\ In "a.pdf" (ids (docs (es (fst (syncFilesWithElasticsearch quiet broken_link_world))))).
Proof.
  split.
  - apply (sync_keeps_documents_with_file quiet small_world
             [regular_file "a.pdf"; regular_file "b.docx"; regular_file "notes.txt"]).
    + reflexivity.
    + simpl. tauto.
    + simpl. tauto.
  - apply (sync_keeps_documents_with_file quiet broken_link_world
             [regular_file "a.pdf"; dangling_link "link.pdf"]).
    + reflexivity.
    + simpl. tauto.
    + simpl. tauto.
Defined.

Lemma NoDup_ids_filter (p : hit -> bool) (ds : list hit) :
  NoDup (ids ds) -> NoDup (ids (filter p ds)).
Proof.
  induction ds as [|d ds IH]; intros Hnd; simpl; [constructor|].
  inversion Hnd as [|x l Hx Hl]; subst.
  destruct (p d); simpl; [|now apply IH].
  constructor; [|now apply IH].
  intros Hin. apply Hx. unfold ids in *. apply in_map_iff in Hin.
  destruct Hin as (h & He & Hh). apply filter_In in Hh.
  apply in_map_iff. exists h. tauto.
Qed.

Lemma loop_NoDup (env : environment) (entries : list dirent) l : forall w ic sc,
  NoDup (ids (docs w)) -> NoDup (ids (docs (loop_world env entries w l ic sc))).
Proof.
  unfold loop_world.
  induction l as [|f l IH]; intros w ic sc Hnd; [exact Hnd|].
  destruct (turn_cases env entries f) as [H|m H1 H2|H|m st H1 H2 H].
  - rewrite index_new_files_unsupported by assumption. now apply IH.
  - rewrite (index_new_files_missing _ _ _ _ _ _ _ m) by assumption. now apply IH.
  - rewrite index_new_files_refused by assumption. now apply IH.
  - rewrite (index_new_files_accepted _ _ _ _ _ _ _ m st) by assumption.
    apply IH. unfold docs at 1. cbn [es_index]. now apply NoDup_upsert.
Qed.

(** X9. A run keeps the ids of the index unique, with or without a
    storage root, and whether or not the storage root can be listed. *)
Theorem sync_keeps_ids_unique (env : environment) (w : world) :
  NoDup (ids (docs (es w))) ->
  NoDup (ids (docs (es (fst (syncFilesWithElasticsearch env w))))).
Proof.
  intros Hnd. destruct (uploads w) as [entries|] eqn:Hu.
  - destruct (filesInDirectory entries) as [files|f] eqn:Hl;
      [|now rewrite (sync_stat_throws env w entries f Hu Hl)].
    rewrite (sync_with_directory env w entries files Hu Hl). cbv zeta. cbn [fst es].
    apply loop_NoDup. rewrite delete_orphans_keeps. now apply NoDup_ids_filter.
  - unfold syncFilesWithElasticsearch. rewrite Hu. exact Hnd.
Qed.

Lemma sync_keeps_ids_unique_witness :
  NoDup (ids (docs (es (fst (syncFilesWithElasticsearch quiet small_world))))).
Proof.
  apply sync_keeps_ids_unique. simpl.
  constructor; [simpl; intros [H|[]]; discriminate|].
  constructor; [simpl; tauto | constructor].
Defined.

(** X10. Convergence.  When the storage root exists and can be listed, the
    index holds at most 10000 documents and the service refuses nothing,
    then after one run every indexed id names a regular, non-hidden file
    of the storage root and every such file of a supported type is
    indexed. *)
Theorem sync_converges (env : environment) (w : world) (entries : list dirent)
        (files : list string) :
  uploads w = Some entries ->
  filesInDirectory entries = listed files ->
  (Z.of_nat (List.length (docs (es w))) <= size getAllDocuments_body)%Z ->
  (forall b, rejects env b = false) ->
  let indexed := ids (docs (es (fst (syncFilesWithElasticsearch env w)))) in
  (forall id, In id indexed -> In id files)
  /\ (forall f, In f files -> isSupportedFileType f = true -> In f indexed).
Proof.
  intros Hu Hl Hcap Hnone indexed. subst indexed.
  destruct (after_sync env w entries files Hu Hl Hcap) as (_ & Hids & Hrefused).
  rewrite (listed_regular_names entries files Hl).
  split; [exact Hids|].
  intros f Hf Hsup.
  destruct (in_dec string_dec f
              (ids (docs (es (fst (syncFilesWithElasticsearch env w)))))) as [Hin|Hn];
    [exact Hin|].
  exfalso.
  assert (Hnew : In f (new_files entries
                         (docs (es (fst (syncFilesWithElasticsearch env w))))))
    by (apply new_files_spec; tauto).
  apply Hrefused in Hnew. destruct Hnew as [_ Hnew]. unfold refused in Hnew.
  destruct (getMimeType f); [|discriminate].
  destruct (statSync entries f); [|discriminate].
  rewrite Hnone in Hnew. discriminate.
Qed.

Lemma sync_converges_witness :
  In "b.docx" (ids (docs (es (fst (syncFilesWithElasticsearch quiet small_world)))))
  /\ ~ In "gone.pdf" (ids (docs (es (fst (syncFilesWithElasticsearch quiet small_world))))).
Proof.
  destruct (sync_converges quiet small_world
              [regular_file "a.pdf"; regular_file "b.docx"; regular_file "notes.txt"]
              ["a.pdf"; "b.docx"; "notes.txt"])
    as [Hids Hfiles].
  - reflexivity.
  - reflexivity.
  - vm_compute. discriminate.
  - reflexivity.
  - split.
    + apply Hfiles; [simpl; tauto | reflexivity].
    + intros Hin. apply Hids in Hin. simpl in Hin.
      destruct Hin as [H|[H|[H|[]]]]; discriminate.
Defined.


(** *** The summary *)

Lemma loop_indexed_count (env : environment) (entries : list dirent) l : forall w ic sc,
  (forall f, In f l -> getMimeType f <> None /\ statSync entries f <> None) ->
  loop_indexed env entries w l ic sc
  = (ic + List.length (filter (fun f => negb (refused env entries f)) l))%nat.
Proof.
  unfold loop_indexed.
  induction l as [|f l IH]; intros w ic sc Hall; [simpl; lia|].
  assert (Hall' : forall g, In g l -> getMimeType g <> None /\ statSync entries g <> None)
    by (intros g Hg; apply Hall; now right).
  destruct (Hall f (or_introl eq_refl)) as [Hm Hs].
  destruct (turn_cases env entries f) as [H|m H1 H2|H|m st H1 H2 H].
  - now elim Hm.
  - now elim Hs.
  - rewrite index_new_files_refused by assumption.
    rewrite IH by exact Hall'. cbn [filter]. now rewrite H.
  - rewrite (index_new_files_accepted _ _ _ _ _ _ _ m st) by assumption.
    rewrite IH by exact Hall'. cbn [filter]. rewrite H. cbn [negb List.length]. lia.
Qed.

Lemma filter_deletes (p : string -> bool) (l : list string) :
  filter is_delete (map call_delete l) = map call_delete l
  /\ filter is_delete (map call_index l) = []
  /\ filter (fun c => match c with call_index f => p f | call_delete _ => false end)
            (map call_delete l) = []
  /\ filter (fun c => match c with call_index f => p f | call_delete _ => false end)
            (map call_index l) = map call_index (filter p l).
Proof.
  induction l as [|x l (IH1 & IH2 & IH3 & IH4)]; [repeat split|].
  cbn [map filter is_delete]. rewrite IH1, IH2, IH3, IH4.
  repeat split. now destruct (p x).
Qed.

(** X11. The summary of a run counts requests.  When the storage root
    exists and can be listed, the reported number of orphans removed is
    the number of delete requests the run sent, whether or not the
    service carried them out; the reported number of files indexed is the
    number of index requests of the run that the service accepted; and no
    file is reported skipped. *)
Theorem sync_summary_accounts (env : environment) (w : world) (entries : list dirent)
        (files : list string) :
  uploads w = Some entries ->
  filesInDirectory entries = listed files ->
  exists orphaned newFiles s run_calls,
    snd (syncFilesWithElasticsearch env w) = synced orphaned newFiles s
    /\ es_calls (es (fst (syncFilesWithElasticsearch env w)))
       = (es_calls (es w) ++ run_calls)%list
    /\ orphansRemoved s = List.length (filter is_delete run_calls)
    /\ indexedCount s
       = List.length
           (filter (fun c => match c with
                             | call_index f => negb (refused env entries f)
                             | call_delete _ => false
                             end) run_calls)
    /\ skippedCount s = 0%nat.
Proof.
  intros Hu Hl.
  pose proof (sync_calls_listed env w entries files Hu Hl) as Hcalls.
  pose proof (new_files_sendable entries files (listing (es w)) Hl) as Hsend.
  rewrite (sync_with_directory env w entries files Hu Hl) in *. cbv zeta in *.
  cbn [fst snd es] in *.
  set (orphaned := Sync.orphans entries (listing (es w))) in *.
  set (newFiles := new_files entries (listing (es w))) in *.
  exists orphaned, newFiles. eexists.
  exists (map call_delete (ids orphaned) ++ map call_index newFiles)%list.
  split; [reflexivity|]. split; [exact Hcalls|].
  cbn [orphansRemoved indexedCount skippedCount].
  destruct (filter_deletes (fun f => negb (refused env entries f)) (ids orphaned))
    as (D1 & _ & D3 & _).
  destruct (filter_deletes (fun f => negb (refused env entries f)) newFiles)
    as (_ & I2 & _ & I4).
  rewrite !filter_app, D1, I2, D3, I4, app_nil_r. cbn [app].
  unfold ids. rewrite !length_map.
  split; [reflexivity|]. split.
  - now rewrite (loop_indexed_count env entries newFiles _ _ _ Hsend).
  - apply loop_skips_nothing. intros f Hf. now apply new_files_spec in Hf.
Qed.

Lemma sync_summary_accounts_witness :
  exists s,
    snd (syncFilesWithElasticsearch quiet small_world)
    = synced [stored "gone.pdf"] ["b.docx"] s
    /\ orphansRemoved s = 1%nat /\ indexedCount s = 1%nat /\ skippedCount s = 0%nat.
Proof.
  destruct (sync_summary_accounts quiet small_world
              [regular_file "a.pdf"; regular_file "b.docx"; regular_file "notes.txt"]
              ["a.pdf"; "b.docx"; "notes.txt"] eq_refl eq_refl)
    as (o & n & s & cs & E & Hc & Ho & Hi & Hs).
  exists s. vm_compute in E. injection E as <- <- <-. repeat split.
Defined.

End ReconciliationProperties.

(* ================================================================== *)
(** ** Properties of the query handling *)
(* ================================================================== *)

Module QueryProperties.

Import JS Elasticsearch Highlight SearchProperties HighlightProperties.

(** *** trim and toLowerCase *)

Lemma trimStart_head (s : string) :
  trimStart s = "" \/ exists c t, trimStart s = String c t /\ is_space c = false.
Proof.
  induction s as [|c s IH]; simpl; [now left|].
  destruct (is_space c) eqn:Hc; [exact IH|].
  right. now exists c, s.
Qed.

Lemma trimEnd_head (c : ascii) (s : string) :
  is_space c = false -> exists t, trimEnd (String c s) = String c t.
Proof.
  intros Hc. simpl. destruct (trimEnd s) as [|d t].
  - rewrite Hc. now exists "".
  - now exists (String d t).
Qed.

Lemma trimEnd_idempotent (s : string) : trimEnd (trimEnd s) = trimEnd s.
Proof.
  induction s as [|c s IH]; simpl; [reflexivity|].
  destruct (trimEnd s) as [|d t] eqn:Et.
  - destruct (is_space c) eqn:Hc; simpl; [reflexivity | now rewrite Hc].
  - change (trimEnd (String c (String d t))) with
      (match trimEnd (String d t) with
       | EmptyString => if is_space c then EmptyString else String c EmptyString
       | t' => String c t'
       end).
    now rewrite IH.
Qed.

Lemma trimStart_trim (s : string) : trimStart (trim s) = trim s.
Proof.
  unfold trim. destruct (trimStart_head s) as [->|(c & t & -> & Hc)]; [reflexivity|].
  destruct (trimEnd_head c t Hc) as (t' & ->). simpl. now rewrite Hc.
Qed.

Lemma trim_idempotent (s : string) : trim (trim s) = trim s.
Proof.
  unfold trim at 1. rewrite trimStart_trim. unfold trim. apply trimEnd_idempotent.
Qed.

Lemma is_space_lower_char (c : ascii) : is_space (lower_char c) = is_space c.
Proof. destruct c as [[] [] [] [] [] [] [] []]; reflexivity. Qed.

Lemma lower_char_idempotent (c : ascii) : lower_char (lower_char c) = lower_char c.
Proof. destruct c as [[] [] [] [] [] [] [] []]; reflexivity. Qed.

Lemma toLowerCase_idempotent (s : string) : toLowerCase (toLowerCase s) = toLowerCase s.
Proof.
  induction s as [|c s IH]; simpl; [reflexivity|].
  now rewrite lower_char_idempotent, IH.
Qed.

Lemma toLowerCase_trimStart (s : string) :
  trimStart (toLowerCase s) = toLowerCase (trimStart s).
Proof.
  induction s as [|c s IH]; simpl; [reflexivity|].
  rewrite is_space_lower_char. destruct (is_space c); [exact IH | reflexivity].
Qed.

Lemma toLowerCase_trimEnd (s : string) :
  trimEnd (toLowerCase s) = toLowerCase (trimEnd s).
Proof.
  induction s as [|c s IH]; simpl; [reflexivity|].
  rewrite IH, is_space_lower_char.
  destruct (trimEnd s) as [|d t]; simpl; [|reflexivity].
  now destruct (is_space c).
Qed.

Lemma toLowerCase_trim (s : string) : trim (toLowerCase s) = toLowerCase (trim s).
Proof.
  unfold trim. now rewrite toLowerCase_trimStart, toLowerCase_trimEnd.
Qed.

Lemma toLowerCase_empty (s : string) : toLowerCase s = "" <-> s = "".
Proof. destruct s; simpl; split; congruence. Qed.

Lemma eqb_empty_toLowerCase (s : string) :
  String.eqb (toLowerCase s) "" = String.eqb s "".
Proof. now destruct s. Qed.

(** *** The search request *)

(** X12. [searchDocuments] ignores white space around the query: the
    request for a query is the request for the trimmed query. *)
Theorem searchDocuments_ignores_outer_space (query : string) :
  searchDocuments_body (trim query) = searchDocuments_body query.
Proof.
  unfold searchDocuments_body. rewrite trim_idempotent.
  destruct (String.eqb_spec (trim query) "") as [E|E].
  - now rewrite !orb_true_r.
  - rewrite !orb_false_r.
    destruct (String.eqb_spec query "") as [->|_]; [now contradiction E | reflexivity].
Qed.

(** X13. The tags the search request asks the engine to highlight with
    are the ones the classifier looks for: for a query that is not blank,
    a token wrapped in a requested pre-tag and post-tag is relabelled by
    [processHighlights] from the token alone. *)
Theorem requested_tags_are_classified (query inner : string) :
  trim query <> "" ->
  occurs_ci close_pattern inner = false ->
  has_line_terminator inner = false ->
  exists h,
    highlight (searchDocuments_body query) = Some h
    /\ forall pre post, In pre (pre_tags h) -> In post (post_tags h) ->
         processHighlights query (pre ++ inner ++ post)
         = relabel (toLowerCase (trim query)) inner.
Proof.
  intros Hne Hocc Hlt. unfold searchDocuments_body.
  rewrite (blank_guard_false query Hne). eexists. split; [reflexivity|].
  cbn [pre_tags post_tags]. intros pre post [<-|[]] [<-|[]].
  rewrite (processHighlights_replace query _ Hne).
  change (highlight_tag ++ inner ++ "</span>") with (wrap inner).
  rewrite <- (app_empty_r (wrap inner)).
  rewrite (replace_spans_wrap _ inner "" Hocc Hlt). simpl. apply app_empty_r.
Qed.

Lemma requested_tags_are_classified_witness :
  exists h,
    highlight (searchDocuments_body "report") = Some h
    /\ forall pre post, In pre (pre_tags h) -> In post (post_tags h) ->
         processHighlights "report" (pre ++ "Reports" ++ post)
         = fuzzy_tag ++ "Reports" ++ "</span>".
Proof.
  destruct (requested_tags_are_classified "report" "Reports") as (h & E & H).
  - discriminate.
  - reflexivity.
  - reflexivity.
  - exists h. split; [exact E|]. intros pre post Hpre Hpost.
    rewrite (H pre post Hpre Hpost). reflexivity.
Defined.

(** *** The classifier *)

(** X14. A fragment without the opening tag comes back unchanged,
    whatever the query. *)
Theorem text_without_spans_is_unchanged (searchTerm html : string) :
  occurs_ci open_pattern html = false ->
  processHighlights searchTerm html = html.
Proof.
  intros Hocc. unfold processHighlights.
  destruct (String.eqb searchTerm "" || String.eqb (trim searchTerm) ""
            || String.eqb html ""); [reflexivity|].
  now apply replace_spans_tail.
Qed.

Lemma text_without_spans_is_unchanged_witness :
  processHighlights "report" "a <b>report</b> of 2 < 3" = "a <b>report</b> of 2 < 3".
Proof.
  apply text_without_spans_is_unchanged. reflexivity.
Defined.

Lemma has_space_app (s t : string) : has_space (s ++ t) = has_space s || has_space t.
Proof.
  induction s as [|c s IH]; simpl; [reflexivity|].
  now rewrite IH, orb_assoc.
Qed.

Lemma split_ws_aux_no_space (s : string) : forall cur in_sep t,
  has_space cur = false ->
  In t (split_ws_aux cur in_sep s) -> has_space t = false.
Proof.
  induction s as [|c s IH]; intros cur in_sep t Hcur Hin; simpl in Hin.
  - destruct Hin as [<-|[]]. exact Hcur.
  - destruct (is_space c) eqn:Hc.
    + destruct in_sep.
      * now apply (IH cur true).
      * destruct Hin as [<-|Hin]; [exact Hcur|]. now apply (IH "" true).
    + apply (IH (cur ++ String c "") false); [|exact Hin].
      rewrite has_space_app. simpl. now rewrite Hcur, Hc.
Qed.

Lemma split_ws_aux_word (s : string) : forall cur in_sep,
  has_space s = false -> split_ws_aux cur in_sep s = [cur ++ s].
Proof.
  induction s as [|c s IH]; intros cur in_sep Hs; simpl.
  - now rewrite app_empty_r.
  - simpl in Hs. apply orb_false_iff in Hs. destruct Hs as [Hc Hs].
    rewrite Hc, (IH _ false Hs), app_assoc_str. reflexivity.
Qed.

(** X15. The query terms the classifier compares with are never empty and
    hold no white space; a query of one word has that word as its only
    term, so that a span is exact for it exactly when its lowercased
    inner text is the lowercased query. *)
Theorem query_terms_are_words (term : string) :
  (forall t, In t (query_terms term) -> t <> "" /\ has_space t = false)
  /\ (term <> "" -> has_space term = false ->
      query_terms term = [term]
      /\ forall inner, isExact term inner = String.eqb term (toLowerCase inner)).
Proof.
  split.
  - intros t Ht. unfold query_terms in Ht. apply filter_In in Ht.
    destruct Ht as [Hin Hlen]. split.
    + intros ->. discriminate.
    + now apply (split_ws_aux_no_space term "" false).
  - intros Hne Hs.
    assert (E : query_terms term = [term]).
    { unfold query_terms, split_ws. rewrite (split_ws_aux_word term "" false Hs).
      simpl. destruct term; [contradiction | reflexivity]. }
    split; [exact E|]. intros inner. unfold isExact. rewrite E. simpl.
    now destruct (String.eqb term (toLowerCase inner)).
Qed.

Lemma query_terms_are_words_witness :
  query_terms "quarterly   report" = ["quarterly"; "report"]
  /\ query_terms "report" = ["report"].
Proof.
  split; [reflexivity|].
  destruct (query_terms_are_words "report") as [_ H].
  destruct H as [E _]; [discriminate | reflexivity | exact E].
Defined.

(** X16. The classifier ignores the letter case of the query and the
    white space around it: the lowercased query and the trimmed query
    classify every fragment as the query itself does. *)
Theorem processHighlights_normalises_query (searchTerm html : string) :
  processHighlights (toLowerCase searchTerm) html = processHighlights searchTerm html
  /\ processHighlights (trim searchTerm) html = processHighlights searchTerm html.
Proof.
  unfold processHighlights. split.
  - rewrite toLowerCase_trim, !eqb_empty_toLowerCase, toLowerCase_idempotent.
    reflexivity.
  - rewrite trim_idempotent.
    destruct (String.eqb_spec (trim searchTerm) "") as [E|E].
    + now rewrite !orb_true_r.
    + rewrite !orb_false_r.
      destruct (String.eqb_spec searchTerm "") as [->|_]; [now contradiction E | reflexivity].
Qed.

End QueryProperties.

(* ================================================================== *)
(** ** Properties of file names, types, icons and snippets *)
(* ================================================================== *)

Module FileTypeProperties.

Import JS HighlightProperties QueryProperties.

(** *** Extensions *)

Lemma lastIndexOf_dot_app (a t : string) :
  lastIndexOf_dot t = None -> lastIndexOf_dot (a ++ t) = lastIndexOf_dot a.
Proof.
  intros Ht. induction a as [|c a IH]; simpl; [exact Ht|]. now rewrite IH.
Qed.

Lemma lastIndexOf_dot_ext (a e : string) :
  lastIndexOf_dot e = None ->
  lastIndexOf_dot (a ++ String "." e) = Some (String.length a).
Proof.
  intros He. induction a as [|c a IH]; simpl; [now rewrite He | now rewrite IH].
Qed.

Lemma lastIndexOf_dot_split (s : string) : forall i,
  lastIndexOf_dot s = Some i ->
  exists a e, s = a ++ String "." e /\ String.length a = i /\ lastIndexOf_dot e = None.
Proof.
  induction s as [|c s IH]; intros i H; simpl in H; [discriminate|].
  destruct (lastIndexOf_dot s) as [j|] eqn:Hs.
  - injection H as <-. destruct (IH j eq_refl) as (a & e & -> & <- & He).
    now exists (String c a), e.
  - destruct (Ascii.eqb_spec c ".") as [->|_]; [|discriminate].
    injection H as <-. now exists "", s.
Qed.

Lemma substring_all (s : string) : substring 0 (String.length s) s = s.
Proof. induction s as [|c s IH]; simpl; [reflexivity | now rewrite IH]. Qed.

Lemma substring_suffix (a b : string) :
  substring (String.length a) (String.length b) (a ++ b) = b.
Proof. induction a as [|c a IH]; simpl; [apply substring_all | exact IH]. Qed.

Lemma substring_prefix (a b : string) : substring 0 (String.length a) (a ++ b) = a.
Proof.
  induction a as [|c a IH]; simpl; [now destruct b | now rewrite IH].
Qed.

Lemma extname_ext (a e : string) :
  a <> "" -> lastIndexOf_dot e = None ->
  extname (a ++ String "." e)
  = if String.eqb (a ++ String "." e) ".." then "" else String "." e.
Proof.
  intros Ha He. unfold extname. rewrite (lastIndexOf_dot_ext a e He).
  destruct a as [|c a]; [contradiction|]. cbn [String.length].
  destruct (String.eqb (String c a ++ String "." e) ".."); [reflexivity|].
  rewrite length_app.
  replace (String.length (String c a) + String.length (String "." e)
           - S (String.length a))%nat
    with (String.length (String "." e)) by (cbn [String.length]; lia).
  exact (substring_suffix (String c a) (String "." e)).
Qed.

Lemma extname_no_ext (s : string) :
  lastIndexOf_dot s = None \/ lastIndexOf_dot s = Some 0%nat -> extname s = "".
Proof. unfold extname. now intros [->| ->]. Qed.

(** X17. The type of a file is read off its last extension, whatever its
    letter case: a name with a non-empty stem before its last dot is
    supported exactly when the lowercased part after that dot is pdf,
    doc, docx, xls or xlsx.  A name without a dot, and a name whose only
    dot is its first character, has no type. *)
Theorem supported_types_by_extension :
  (forall stem e, stem <> "" -> lastIndexOf_dot e = None ->
     Sync.isSupportedFileType (stem ++ "." ++ e)
     = includes ["pdf"; "doc"; "docx"; "xls"; "xlsx"] (toLowerCase e))
  /\ (forall f, lastIndexOf_dot f = None \/ lastIndexOf_dot f = Some 0%nat ->
        Sync.getMimeType f = None).
Proof.
  split.
  - intros stem e Hs He. unfold Sync.isSupportedFileType, Sync.getMimeType.
    change (stem ++ "." ++ e) with (stem ++ String "." e).
    rewrite (extname_ext stem e Hs He).
    destruct (String.eqb_spec (stem ++ String "." e) "..") as [E|_].
    + destruct stem as [|c [|d stem]]; [contradiction| |].
      * simpl in E. injection E as _ E. subst e. reflexivity.
      * simpl in E. injection E as _ _ E. destruct stem; discriminate.
    + unfold includes. cbn [toLowerCase existsb].
      change (lower_char ".") with "."%char.
      cbn [String.eqb]. rewrite !Ascii.eqb_refl, !orb_false_r.
      rewrite !(String.eqb_sym (toLowerCase e)).
      destruct (String.eqb "pdf" (toLowerCase e)); [reflexivity|].
      destruct (String.eqb "doc" (toLowerCase e)); [reflexivity|].
      destruct (String.eqb "docx" (toLowerCase e)); [reflexivity|].
      destruct (String.eqb "xls" (toLowerCase e)); [reflexivity|].
      destruct (String.eqb "xlsx" (toLowerCase e)); reflexivity.
  - intros f Hf. unfold Sync.getMimeType. now rewrite (extname_no_ext f Hf).
Qed.

Lemma supported_types_by_extension_witness :
  Sync.isSupportedFileType "Quarterly.Report.PDF" = true
  /\ Sync.getMimeType ".pdf" = None.
Proof.
  destruct supported_types_by_extension as [H1 H2]. split.
  - assert (Hs : "Quarterly.Report" <> "") by discriminate.
    exact (eq_trans (H1 "Quarterly.Report" "PDF" Hs eq_refl) eq_refl).
  - apply H2. now right.
Defined.

(** *** The three tables of types *)

(** X18. The copies of the type table agree.  [getMimeType] of index.js
    gives the type [getMimeType] of elasticsearch.js gives, and the
    default for the names that one has no type for; the upload filter
    allows a mime type exactly when [extractText] has an extractor for
    it; and every type a file name can have is an allowed one. *)
Theorem type_tables_agree :
  (forall f, Server.getMimeType f
             = match Sync.getMimeType f with
               | Some m => m
               | None => "application/octet-stream"
               end)
  /\ (forall m, Server.fileFilter m = true <-> TextExtractor.format_of m <> None)
  /\ (forall f m, Sync.getMimeType f = Some m -> Server.fileFilter m = true)
  /\ (forall f, Server.fileFilter (Server.getMimeType f) = Sync.isSupportedFileType f).
Proof.
  assert (H1 : forall f, Server.getMimeType f
             = match Sync.getMimeType f with
               | Some m => m
               | None => "application/octet-stream"
               end).
  { intros f. unfold Server.getMimeType, Sync.getMimeType.
    repeat match goal with |- context [String.eqb ?a ?b] =>
      destruct (String.eqb a b); [reflexivity|] end.
    reflexivity. }
  assert (H3 : forall f m, Sync.getMimeType f = Some m -> Server.fileFilter m = true).
  { intros f m. unfold Sync.getMimeType.
    repeat match goal with |- context [if String.eqb ?a ?b then _ else _] =>
      destruct (String.eqb a b); [intros E; injection E as <-; reflexivity|] end.
    discriminate. }
  split; [exact H1|]. split; [|split; [exact H3|]].
  - intros m. unfold Server.fileFilter, TextExtractor.format_of. split.
    + intros H. apply SyncProperties.includes_In in H. unfold Server.allowedMimeTypes in H. simpl in H.
      destruct H as [<-|[<-|[<-|[<-|[<-|[]]]]]]; discriminate.
    + repeat match goal with |- context [if String.eqb ?a ?b then _ else _] =>
        destruct (String.eqb_spec a b) as [->|?]; [intros _; reflexivity|] end.
      intros H. now contradiction H.
  - intros f. rewrite H1. unfold Sync.isSupportedFileType.
    destruct (Sync.getMimeType f) as [m|] eqn:E; [now apply (H3 f)|reflexivity].
Qed.


(** *** The name an upload is stored under *)

Lemma decimal_no_dot (n : nat) : lastIndexOf_dot (Server.decimal n) = None.
Proof.
  unfold Server.decimal. generalize (Nat.to_uint n) as d.
  induction d as [|d IH|d IH|d IH|d IH|d IH|d IH|d IH|d IH|d IH|d IH];
    simpl; [reflexivity|..]; now rewrite IH.
Qed.

Lemma dash_decimal_no_dot (n : nat) : lastIndexOf_dot ("-" ++ Server.decimal n) = None.
Proof. simpl. now rewrite decimal_no_dot. Qed.

Lemma basename_of_ext (a e : string) :
  a <> "" ->
  Server.basename (a ++ String "." e) (String "." e) = a.
Proof.
  intros Ha. unfold Server.basename, Server.endsWith.
  rewrite !length_app.
  replace (0 <? String.length (String "." e))%nat with true by reflexivity.
  replace (String.length (String "." e)
           <=? String.length a + String.length (String "." e))%nat with true
    by (symmetry; apply Nat.leb_le; lia).
  cbn [andb].
  destruct (String.eqb_spec (String "." e) (a ++ String "." e)) as [E|_].
  - exfalso. apply (f_equal String.length) in E. rewrite length_app in E.
    destruct a; [contradiction|]. cbn [String.length] in E. lia.
  - replace (String.length a + String.length (String "." e)
             - String.length (String "." e))%nat with (String.length a) by lia.
    rewrite substring_suffix, String.eqb_refl. apply substring_prefix.
Qed.

Lemma basename_no_ext (p : string) : Server.basename p "" = p.
Proof. reflexivity. Qed.

Lemma mime_of_dash_ext (t : string) :
  Sync.getMimeType ("..-" ++ t) = None \/ lastIndexOf_dot t <> None.
Proof.
  destruct (lastIndexOf_dot t) eqn:Ht; [right; discriminate | left].
  unfold Sync.getMimeType.
  change ("..-" ++ t) with ("." ++ String "." ("-" ++ t)).
  rewrite extname_ext; [|discriminate | simpl; now rewrite Ht].
  reflexivity.
Qed.

(** X19. Renaming an upload keeps its type.  The name multer stores an
    upload under, made of the base name, a dash, the time in decimal and
    the extension of the name it was uploaded under, has the same type as
    that name, so that reconciliation sees the file as the upload did. *)
Theorem stored_filename_keeps_type (originalname : string) (now : nat) :
  Sync.getMimeType (Server.stored_filename originalname now)
  = Sync.getMimeType originalname.
Proof.
  unfold Server.stored_filename.
  destruct (lastIndexOf_dot originalname) as [[|i]|] eqn:Hd.
  - (* the only dot is the first character *)
    rewrite (extname_no_ext originalname (or_intror Hd)), basename_no_ext, app_empty_r.
    unfold Sync.getMimeType.
    rewrite (extname_no_ext originalname (or_intror Hd)).
    rewrite extname_no_ext; [reflexivity|]. right.
    now rewrite (lastIndexOf_dot_app originalname _ (dash_decimal_no_dot now)).
  - destruct (lastIndexOf_dot_split originalname (S i) Hd) as (a & e & -> & Ha & He).
    assert (Hne : a <> "") by (intros ->; discriminate).
    rewrite (extname_ext a e Hne He).
    destruct (String.eqb_spec (a ++ String "." e) "..") as [E|Hnot].
    + (* the name is ".." *)
      rewrite E, basename_no_ext, app_empty_r.
      destruct (mime_of_dash_ext (Server.decimal now)) as [H|H].
      * exact H.
      * now contradiction H; apply decimal_no_dot.
    + rewrite (basename_of_ext a e Hne).
      unfold Sync.getMimeType.
      replace (a ++ "-" ++ Server.decimal now ++ String "." e)
        with ((a ++ "-" ++ Server.decimal now) ++ String "." e)
        by (now rewrite !app_assoc_str).
      rewrite (extname_ext _ e), (extname_ext a e Hne He); [| |exact He].
      * destruct (String.eqb_spec ((a ++ "-" ++ Server.decimal now) ++ String "." e) "..")
          as [E|_].
        -- exfalso. apply (f_equal String.length) in E.
           rewrite !length_app in E. destruct a; [contradiction|].
           cbn [String.length] in E. lia.
        -- destruct (String.eqb_spec (a ++ String "." e) "..") as [E|_];
             [contradiction | reflexivity].
      * destruct a; [contradiction | discriminate].
  - (* no dot at all *)
    rewrite (extname_no_ext originalname (or_introl Hd)), basename_no_ext, app_empty_r.
    unfold Sync.getMimeType.
    rewrite (extname_no_ext originalname (or_introl Hd)).
    rewrite extname_no_ext; [reflexivity|]. left.
    now rewrite (lastIndexOf_dot_app originalname _ (dash_decimal_no_dot now)).
Qed.

(** *** Icons *)

(** X20. Every file gets the icon of its kind.  The icon for the mime
    type that index.js reports for a file name is the PDF icon when the
    lowercased extension of the name is .pdf, the Word icon when it is
    .doc or .docx, the Excel icon when it is .xls or .xlsx, and the
    generic icon otherwise; it is the generic icon exactly when the type
    of the name is not supported, and the mime type that the
    reconciliation stores for a supported file gives the same icon. *)
Theorem icon_by_type (f : string) :
  Component.getFileIcon (Some (Server.getMimeType f))
  = (if String.eqb (toLowerCase (extname f)) ".pdf"
     then "fa-file-pdf has-text-danger"
     else if String.eqb (toLowerCase (extname f)) ".doc"
             || String.eqb (toLowerCase (extname f)) ".docx"
     then "fa-file-word has-text-link"
     else if String.eqb (toLowerCase (extname f)) ".xls"
             || String.eqb (toLowerCase (extname f)) ".xlsx"
     then "fa-file-excel has-text-success"
     else "fa-file-alt")
  /\ (Component.getFileIcon (Some (Server.getMimeType f)) = "fa-file-alt"
      <-> Sync.isSupportedFileType f = false)
  /\ (forall m, Sync.getMimeType f = Some m ->
        Component.getFileIcon (Some m)
        = Component.getFileIcon (Some (Server.getMimeType f))
        /\ In (Component.getFileIcon (Some m))
              ["fa-file-pdf has-text-danger"; "fa-file-word has-text-link";
               "fa-file-excel has-text-success"]).
Proof.
  unfold Server.getMimeType, Sync.isSupportedFileType, Sync.getMimeType.
  split; [|split].
  - repeat match goal with |- context [if String.eqb ?a ?b then _ else _] =>
      destruct (String.eqb a b); [reflexivity|] end.
    reflexivity.
  - repeat match goal with |- context [if String.eqb ?a ?b then _ else _] =>
      destruct (String.eqb a b); [split; intros H; vm_compute in H; discriminate|] end.
    split; reflexivity.
  - intros m.
    repeat match goal with |- context [if String.eqb ?a ?b then _ else _] =>
      destruct (String.eqb a b);
        [intros E; injection E as <-; vm_compute; tauto|] end.
    discriminate.
Qed.

End FileTypeProperties.

Module SnippetProperties.

Import JS Highlight Component HighlightProperties QueryProperties.

(** X21. The snippet follows [hasContentMatch]: without a content match
    it is empty; with fragments of the exact content field it is made of
    those alone, each classified and joined by an ellipsis, whatever the
    fragments of the analysed content field are; and for a blank query
    the fragments are joined as they came. *)
Theorem snippet_of_fragments (searchTerm : string) (file : FileInfo) :
  (hasContentMatch file = false -> getHighlightSnippet searchTerm file = "")
  /\ (forall h x l,
        highlights file = Some h -> content_exact h = Some (x :: l) ->
        hasContentMatch file = true
        /\ getHighlightSnippet searchTerm file
           = join " ... " (map (processHighlights searchTerm) (x :: l)))
  /\ (forall h x l,
        highlights file = Some h -> non_empty (content_exact h) = false ->
        content h = Some (x :: l) ->
        hasContentMatch file = true
        /\ getHighlightSnippet searchTerm file
           = join " ... " (map (processHighlights searchTerm) (x :: l)))
  /\ (trim searchTerm = "" ->
      forall h x l,
        highlights file = Some h -> content_exact h = Some (x :: l) ->
        getHighlightSnippet searchTerm file = join " ... " (x :: l)).
Proof.
  unfold hasContentMatch, getHighlightSnippet. split; [|split; [|split]].
  - destruct (highlights file) as [h|]; [|reflexivity].
    destruct (content_exact h) as [[|x l]|]; destruct (content h) as [[|y k]|];
      simpl; intros H; try discriminate; reflexivity.
  - intros h x l -> ->. split; [apply orb_true_r | reflexivity].
  - intros h x l -> Hex ->.
    destruct (content_exact h) as [[|y k]|]; try discriminate; split; reflexivity.
  - intros Hb h x l -> ->. f_equal.
    assert (Hid : forall html, processHighlights searchTerm html = html).
    { intros html. unfold processHighlights. rewrite Hb, String.eqb_refl.
      now rewrite orb_true_r. }
    rewrite (map_ext _ (fun s => s) Hid). apply map_id.
Qed.

End SnippetProperties.

(* ================================================================== *)
(** ** Properties of the delete route *)
(* ================================================================== *)

Module RouteProperties.

Import JS Elasticsearch Sync Server SyncProperties IndexServiceProperties
       ReconciliationProperties.

Lemma listing_incl (w : es_world) : incl (ids (listing w)) (ids (docs w)).
Proof.
  intros x Hx. unfold ids, listing in *. apply in_map_iff in Hx.
  destruct Hx as (h & He & Hh). apply in_map_iff. exists h. split; [exact He|].
  rewrite <- (firstn_skipn (Z.to_nat (size getAllDocuments_body)) (docs w)).
  apply in_or_app. now left.
Qed.

Lemma unlinkSync_names (entries : list dirent) (filename : string) :
  ~ In filename (map name (unlinkSync entries filename)).
Proof.
  unfold unlinkSync. intros Hin. apply in_map_iff in Hin.
  destruct Hin as (e & He & Hin). apply filter_In in Hin. destruct Hin as [_ Hc].
  apply negb_true_iff, String.eqb_neq in Hc. contradiction.
Qed.

Lemma delete_route_plain (t : bool) (w : world) (entries : list dirent)
      (filename : string) :
  uploads w = Some entries ->
  plain_name filename = true ->
  delete_route t w filename
  = match statSync entries filename with
    | None => Some (w, not_found)
    | Some st =>
        if isFile st then
          if t then Some (w, server_error)
          else Some ({| uploads := Some (unlinkSync entries filename);
                        es := fst (deleteDocument (es w) filename) |}, deleted filename)
        else None
    end.
Proof.
  intros Hu Hp. unfold plain_name in Hp.
  apply andb_true_iff in Hp. destruct Hp as [Hp H3].
  apply andb_true_iff in Hp. destruct Hp as [Hp H2].
  apply andb_true_iff in Hp. destruct Hp as [H0 H1].
  apply negb_true_iff in H0, H1, H2, H3.
  unfold delete_route. rewrite H0, H1, H2, H3, Hu. cbn [orb].
  destruct (statSync entries filename) as [st|]; [|reflexivity].
  destruct (isFile st); [|reflexivity]. destruct t; [reflexivity|].
  now destruct (deleteDocument (es w) filename).
Qed.

(** X22. Deleting a file through the route, for a name that is a single
    path segment other than the dot segments.  For a name that is not in
    the storage root the answer is 404 and neither the storage nor the
    index changes, even if a document of that id is indexed.  For a
    regular file whose unlink throws the answer is 500 and nothing
    changes.  For a regular file that is unlinked the answer is 200;
    afterwards the storage root has no entry and the index no document of
    that name, every other entry and document is as before, and a
    reconciliation run that follows sends the index no request about that
    name. *)
Theorem delete_route_removes_file_and_document
        (env : environment) (w : world) (entries : list dirent) (filename : string) :
  uploads w = Some entries ->
  plain_name filename = true ->
  (forall t, statSync entries filename = None ->
             delete_route t w filename = Some (w, not_found))
  /\ (forall st, statSync entries filename = Some st -> isFile st = true ->
      delete_route true w filename = Some (w, server_error)
      /\ exists w1,
           delete_route false w filename = Some (w1, deleted filename)
           /\ uploads w1 = Some (unlinkSync entries filename)
           /\ ~ In filename (map name (unlinkSync entries filename))
           /\ ~ In filename (ids (docs (es w1)))
           /\ (forall e, name e <> filename ->
                 (In e (unlinkSync entries filename) <-> In e entries))
           /\ (forall h, _id h <> filename -> (In h (docs (es w1)) <-> In h (docs (es w))))
           /\ exists removed sent,
                es_calls (es (fst (syncFilesWithElasticsearch env w1)))
                = (es_calls (es w1) ++ map call_delete removed
                   ++ map call_index sent)%list
                /\ ~ In filename removed /\ ~ In filename sent).
Proof.
  intros Hu Hp. split.
  - intros t Hs. rewrite (delete_route_plain t w entries filename Hu Hp). now rewrite Hs.
  - intros st Hs Hfile.
    rewrite !(delete_route_plain _ w entries filename Hu Hp), Hs, Hfile.
    split; [reflexivity|].
    set (es' := fst (deleteDocument (es w) filename)).
    exists {| uploads := Some (unlinkSync entries filename); es := es' |}.
    cbn [uploads es].
    pose proof (docs_deleteDocument (es w) filename) as Hdocs. fold es' in Hdocs.
    assert (Hgone : ~ In filename (ids (docs es')))
      by apply deleteDocument_removes_id.
    split; [reflexivity|]. split; [reflexivity|].
    split; [apply unlinkSync_names|]. split; [exact Hgone|]. split; [|split].
    + intros e Hne. unfold unlinkSync. rewrite filter_In. split; [tauto|].
      intros He. split; [exact He|]. now apply negb_true_iff, String.eqb_neq.
    + intros h Hne. rewrite Hdocs, filter_In. split; [tauto|].
      intros Hh. split; [exact Hh|]. now apply negb_true_iff, String.eqb_neq.
    + destruct (sync_calls env {| uploads := Some (unlinkSync entries filename); es := es' |}
                  (unlinkSync entries filename) eq_refl) as (removed & sent & E & Ir & Is).
      cbn [es] in E, Ir, Is.
      exists (ids removed), sent.
      split; [exact E|]. split.
      * intros Hin. apply Hgone. apply listing_incl.
        unfold ids in *. apply in_map_iff in Hin.
        destruct Hin as (h & He & Hh). apply Ir in Hh. unfold Sync.orphans in Hh.
        apply filter_In in Hh. apply in_map_iff. exists h. tauto.
      * intros Hin. apply Is, new_files_spec in Hin. destruct Hin as (Hf & _).
        apply regular_names_names in Hf. now apply (unlinkSync_names entries filename).
Qed.

Lemma delete_route_removes_file_and_document_witness :
  uploads small_world = Some [regular_file "a.pdf"; regular_file "b.docx";
                              regular_file "notes.txt"]
  /\ plain_name "a.pdf" = true
  /\ plain_name "missing.pdf" = true
  /\ (exists w1, delete_route false small_world "a.pdf" = Some (w1, deleted "a.pdf"))
  /\ delete_route false small_world "missing.pdf" = Some (small_world, not_found).
Proof.
  destruct (delete_route_removes_file_and_document quiet small_world
              [regular_file "a.pdf"; regular_file "b.docx"; regular_file "notes.txt"]
              "a.pdf" eq_refl eq_refl) as [_ H].
  destruct (H {| isFile := true; st_size := 1; mtime := 2 |} eq_refl eq_refl)
    as (_ & w1 & E & _).
  destruct (delete_route_removes_file_and_document quiet small_world
              [regular_file "a.pdf"; regular_file "b.docx"; regular_file "notes.txt"]
              "missing.pdf" eq_refl eq_refl) as [N _].
  split; [reflexivity|]. split; [reflexivity|]. split; [reflexivity|].
  split; [now exists w1 | exact (N false eq_refl)].
Defined.

End RouteProperties.

(* ================================================================== *)
(** ** Properties of the text extractor *)
(* ================================================================== *)

Module ExtractorProperties.

Import JS TextExtractor HighlightProperties QueryProperties.






End ExtractorProperties.
